(** * Service-endpoint derivation and pod/log queries of the query provider

    A shallow embedding of the Go package [query] (the velaql query
    provider): the endpoint derivation from Services and Ingresses, the
    URL rendering of an endpoint, the pod-collector dispatch, the
    service-endpoint loop over applied resources and the log collection
    with its time window.  The addon status functions and the custom
    application-webhook handler are embedded after them.

    Conventions.
    - Go strings are [string]; Go [int32]/[int64]/[int] values are [Z]
      with the wrap-around of each conversion written out.
    - [map[string]string] (annotations) is [gmap string string]; reading
      a missing key yields the empty string, as in Go.
    - Slices are lists; [append] in a loop is a left fold.
    - The object-store client, the value bridge and the clock are
      outside the package: they are Section variables. *)

From Stdlib Require Import ZArith List Bool Ascii String Lia.
From Stdlib Require Import Numbers.DecimalString Numbers.DecimalPos.
From stdpp Require Import base gmap strings.

Import ListNotations.
Local Open Scope string_scope.
Local Open Scope list_scope.
Local Open Scope Z_scope.

(** ** Machine integers *)

Module GoInt.

(** Two's-complement reduction of an unbounded integer to [w] bits:
    what a Go conversion or an overflowing operation leaves. *)
Definition wrap (w : Z) (z : Z) : Z :=
  (z + 2 ^ (w - 1)) mod 2 ^ w - 2 ^ (w - 1).

Definition int32 (z : Z) : Z := wrap 32 z.
Definition int64 (z : Z) : Z := wrap 64 z.

Definition fits (w : Z) (z : Z) : Prop :=
  - 2 ^ (w - 1) <= z < 2 ^ (w - 1).

(** [int] is 64 bits wide on the targets the project is built for. *)
Definition intSize : Z := 64.

Definition neg64 (a : Z) : Z := int64 (- a).
Definition mul64 (a b : Z) : Z := int64 (a * b).

End GoInt.

(** ** Kubernetes API objects, as far as the package reads them *)

(** [corev1.ObjectReference] *)
Record ObjectReference := {
  ref_Kind : string;
  ref_Namespace : string;
  ref_Name : string;
  ref_UID : string;
  ref_APIVersion : string;
  ref_ResourceVersion : string
}.

(** [metav1.TypeMeta] and the fields of [metav1.ObjectMeta] in use. *)
Record TypeMeta := {
  Kind : string;
  APIVersion : string
}.

Record ObjectMeta := {
  Name : string;
  Namespace : string;
  UID : string;
  ResourceVersion : string;
  Annotations : gmap string string
}.

Definition zeroTypeMeta : TypeMeta := {| Kind := ""; APIVersion := "" |}.
Definition zeroObjectMeta : ObjectMeta :=
  {| Name := ""; Namespace := ""; UID := ""; ResourceVersion := "";
     Annotations := ∅ |}.

(** [corev1.Protocol] and [corev1.ServiceType] are string types. *)
Definition ProtocolTCP : string := "TCP".
Definition ProtocolUDP : string := "UDP".
Definition ProtocolSCTP : string := "SCTP".

Definition ServiceTypeClusterIP : string := "ClusterIP".
Definition ServiceTypeNodePort : string := "NodePort".
Definition ServiceTypeLoadBalancer : string := "LoadBalancer".
Definition ServiceTypeExternalName : string := "ExternalName".

(** [corev1.ServicePort] *)
Record ServicePort := {
  sp_Name : string;
  sp_Protocol : string;
  sp_Port : Z;
  sp_NodePort : Z
}.

(** [corev1.LoadBalancerIngress] *)
Record LoadBalancerIngress := {
  lb_IP : string;
  lb_Hostname : string
}.

(** [corev1.Service] *)
Record Service := {
  svc_TypeMeta : TypeMeta;
  svc_ObjectMeta : ObjectMeta;
  svc_Type : string;
  svc_Ports : list ServicePort;
  svc_LoadBalancerIngress : list LoadBalancerIngress
}.

(** [networkv1beta1.IngressTLS], [HTTPIngressPath], [IngressRule],
    [Ingress].  [rule_HTTP] is the pointer [rule.HTTP]: [None] is nil. *)
Record IngressTLS := {
  tls_Hosts : list string;
  tls_SecretName : string
}.

Record HTTPIngressPath := {
  path_Path : string
}.

Record IngressRule := {
  rule_Host : string;
  rule_HTTP : option (list HTTPIngressPath)
}.

Record Ingress := {
  ing_TypeMeta : TypeMeta;
  ing_ObjectMeta : ObjectMeta;
  ing_TLS : list IngressTLS;
  ing_Rules : list IngressRule
}.

(** ** The package's own types *)

(** [Endpoint]: [AppProtocol] is a [*string]. *)
Record Endpoint := {
  Protocol : string;
  AppProtocol : option string;
  Host : string;
  Port : Z;
  Path : string
}.

Record ServiceEndpoint := {
  endpoint : Endpoint;
  Ref : ObjectReference
}.

(** ** [generatorFromService] *)

Definition serviceRef (service : Service) : ObjectReference :=
  {| ref_Kind := Kind (svc_TypeMeta service);
     ref_Namespace := Namespace (svc_ObjectMeta service);
     ref_Name := Name (svc_ObjectMeta service);
     ref_UID := UID (svc_ObjectMeta service);
     ref_APIVersion := APIVersion (svc_TypeMeta service);
     ref_ResourceVersion := ResourceVersion (svc_ObjectMeta service) |}.

(** The endpoint literal of the load-balancer branch: no [AppProtocol],
    no [Path]. *)
Definition lbEndpoint (service : Service) (port : ServicePort) (host : string)
  : ServiceEndpoint :=
  {| endpoint := {| Protocol := sp_Protocol port; AppProtocol := None;
                    Host := host; Port := sp_Port port; Path := "" |};
     Ref := serviceRef service |}.

(** The endpoint literal of the node-port branch: [Host] is left at its
    zero value. *)
Definition nodePortEndpoint (service : Service) (port : ServicePort)
  : ServiceEndpoint :=
  {| endpoint := {| Protocol := sp_Protocol port; AppProtocol := None;
                    Host := ""; Port := sp_NodePort port; Path := "" |};
     Ref := serviceRef service |}.

(** Body of the inner loop of the load-balancer branch: two independent
    [if]s, each appending to the accumulator. *)
Definition lbIngressStep (service : Service) (port : ServicePort)
    (acc : list ServiceEndpoint) (ingress : LoadBalancerIngress)
  : list ServiceEndpoint :=
  let acc1 :=
    if negb (String.eqb (lb_Hostname ingress) "")
    then acc ++ [lbEndpoint service port (lb_Hostname ingress)]
    else acc in
  if negb (String.eqb (lb_IP ingress) "")
  then acc1 ++ [lbEndpoint service port (lb_IP ingress)]
  else acc1.

Definition lbPortStep (service : Service) (acc : list ServiceEndpoint)
    (port : ServicePort) : list ServiceEndpoint :=
  fold_left (lbIngressStep service port) (svc_LoadBalancerIngress service) acc.

Definition nodePortStep (service : Service) (acc : list ServiceEndpoint)
    (port : ServicePort) : list ServiceEndpoint :=
  acc ++ [nodePortEndpoint service port].

Definition generatorFromService (service : Service) : list ServiceEndpoint :=
  let serviceEndpoints : list ServiceEndpoint := [] in
  if String.eqb (svc_Type service) ServiceTypeLoadBalancer then
    fold_left (lbPortStep service) (svc_Ports service) serviceEndpoints
  else if String.eqb (svc_Type service) ServiceTypeNodePort then
    fold_left (nodePortStep service) (svc_Ports service) serviceEndpoints
  else if String.eqb (svc_Type service) ServiceTypeClusterIP
          || String.eqb (svc_Type service) ServiceTypeExternalName then
    serviceEndpoints
  else serviceEndpoints.

(** ** Library functions the package calls *)

(** [strconv.Atoi]: an optional sign, then one or more decimal digits;
    anything else is a syntax error with value 0; a value outside [int]
    is a range error with the nearest bound.  Go returns the pair. *)
Module Strconv.

Inductive NumError := ErrSyntax | ErrRange.

Definition isDigit (c : ascii) : bool :=
  let n := Z.of_nat (nat_of_ascii c) in (48 <=? n) && (n <=? 57).

Definition digitOf (c : ascii) : Z := Z.of_nat (nat_of_ascii c) - 48.

Fixpoint digitsValue (acc : Z) (s : string) : option Z :=
  match s with
  | EmptyString => Some acc
  | String c s' =>
      if isDigit c then digitsValue (10 * acc + digitOf c) s' else None
  end.

Definition isSign (c : ascii) : bool :=
  Ascii.eqb c "-"%char || Ascii.eqb c "+"%char.

Definition Atoi (s : string) : Z * option NumError :=
  match s with
  | EmptyString => (0, Some ErrSyntax)
  | String c rest =>
      let neg := Ascii.eqb c "-"%char in
      let body := if isSign c then rest else s in
      match body with
      | EmptyString => (0, Some ErrSyntax)
      | _ =>
          match digitsValue 0 body with
          | None => (0, Some ErrSyntax)
          | Some un =>
              let cutoff := 2 ^ (GoInt.intSize - 1) in
              if negb neg && (cutoff <=? un) then (cutoff - 1, Some ErrRange)
              else if neg && (cutoff <? un) then (- cutoff, Some ErrRange)
              else (if neg then - un else un, None)
          end
      end
  end.

(** The [%d] verb of [fmt.Sprintf] on an integer. *)
Definition formatInt (z : Z) : string :=
  NilEmpty.string_of_int (Z.to_int z).

End Strconv.

(** Modelled from the spec: [utils.StringsContain], whose body is not
    part of the sources at hand; "some TLS entry's host list contains
    the rule's host" is membership by string equality. *)
Definition StringsContain (items : list string) (source : string) : bool :=
  existsb (fun item => String.eqb item source) items.

(** [apis.AnnoIngressControllerHTTPSPort], [apis.AnnoIngressControllerHTTPPort] *)
Definition AnnoIngressControllerHTTPSPort : string := "ingress.controller/https-port".
Definition AnnoIngressControllerHTTPPort : string := "ingress.controller/http-port".

(** Indexing a Go map: a missing key reads as the zero value. *)
Definition mapIndex (m : gmap string string) (k : string) : string :=
  default "" (m !! k).

Definition len {A : Type} (l : list A) : Z := Z.of_nat (List.length l).

(** ** [generatorFromIngress] *)

(** The [range ingress.Spec.TLS] loop of [getAppProtocol], with its two
    early returns. *)
Fixpoint getAppProtocolLoop (tlss : list IngressTLS) (host : string) : string :=
  match tlss with
  | [] => "http"
  | tls :: rest =>
      if (0 <? len (tls_Hosts tls)) && StringsContain (tls_Hosts tls) host
      then "https"
      else if len (tls_Hosts tls) =? 0 then "https"
      else getAppProtocolLoop rest host
  end.

Definition getAppProtocol (ingress : Ingress) (host : string) : string :=
  if 0 <? len (ing_TLS ingress)
  then getAppProtocolLoop (ing_TLS ingress) host
  else "http".

(** [getEndpointPort] returns a Go [int]. *)
Definition getEndpointPort (ingress : Ingress) (appProtocol : string) : Z :=
  if String.eqb appProtocol "https" then
    let '(port, err) :=
      Strconv.Atoi (mapIndex (Annotations (ing_ObjectMeta ingress))
                             AnnoIngressControllerHTTPSPort) in
    if (0 <? port) && (match err with None => true | Some _ => false end)
    then port
    else 443
  else
    let '(port, err) :=
      Strconv.Atoi (mapIndex (Annotations (ing_ObjectMeta ingress))
                             AnnoIngressControllerHTTPPort) in
    if (0 <? port) && (match err with None => true | Some _ => false end)
    then port
    else 80.

Definition ingressRef (ingress : Ingress) : ObjectReference :=
  {| ref_Kind := Kind (ing_TypeMeta ingress);
     ref_Namespace := Namespace (ing_ObjectMeta ingress);
     ref_Name := Name (ing_ObjectMeta ingress);
     ref_UID := UID (ing_ObjectMeta ingress);
     ref_APIVersion := APIVersion (ing_TypeMeta ingress);
     ref_ResourceVersion := ResourceVersion (ing_ObjectMeta ingress) |}.

(** The endpoint literal of the path loop; [Port] is [int32(appPort)]. *)
Definition ingressEndpoint (ingress : Ingress) (rule : IngressRule)
    (appProtocol : string) (appPort : Z) (path : HTTPIngressPath)
  : ServiceEndpoint :=
  {| endpoint := {| Protocol := ProtocolTCP;
                    AppProtocol := Some appProtocol;
                    Host := rule_Host rule;
                    Port := GoInt.int32 appPort;
                    Path := path_Path path |};
     Ref := ingressRef ingress |}.

Definition ingressRuleStep (ingress : Ingress) (acc : list ServiceEndpoint)
    (rule : IngressRule) : list ServiceEndpoint :=
  let appProtocol := getAppProtocol ingress (rule_Host rule) in
  let appPort := getEndpointPort ingress appProtocol in
  match rule_HTTP rule with
  | Some paths =>
      fold_left
        (fun acc' path =>
           acc' ++ [ingressEndpoint ingress rule appProtocol appPort path])
        paths acc
  | None => acc
  end.

Definition generatorFromIngress (ingress : Ingress) : list ServiceEndpoint :=
  fold_left (ingressRuleStep ingress) (ing_Rules ingress) [].

(** ** [ServiceEndpoint.String] *)

(** ASCII lower-casing, the action of [strings.ToLower] on the protocol
    names [TCP], [UDP] and [SCTP]. *)
Definition asciiLower (c : ascii) : ascii :=
  let n := nat_of_ascii c in
  if (65 <=? n)%nat && (n <=? 90)%nat then ascii_of_nat (n + 32) else c.

Fixpoint asciiToLower (s : string) : string :=
  match s with
  | EmptyString => EmptyString
  | String c s' => String (asciiLower c) (asciiToLower s')
  end.

Section Rendering.

(** [strings.ToLower] of the Go library. *)
Variable ToLower : string -> string.

Definition urlScheme (s : ServiceEndpoint) : string :=
  let protocol := ToLower (Protocol (endpoint s)) in
  match AppProtocol (endpoint s) with
  | Some p => p
  | None => protocol
  end.

Definition urlPath (s : ServiceEndpoint) : string :=
  let path := Path (endpoint s) in
  if String.eqb (Path (endpoint s)) "/" then "" else path.

(** The condition of the [if] in [String]. *)
Definition defaultPort (protocol : string) (port : Z) : bool :=
  (String.eqb protocol "https" && (port =? 443))
  || (String.eqb protocol "http" && (port =? 80)).

Definition ServiceEndpoint_String (s : ServiceEndpoint) : string :=
  let protocol := urlScheme s in
  let path := urlPath s in
  if defaultPort protocol (Port (endpoint s)) then
    protocol +:+ "://" +:+ Host (endpoint s) +:+ path
  else
    protocol +:+ "://" +:+ Host (endpoint s) +:+ ":"
      +:+ Strconv.formatInt (Port (endpoint s)) +:+ path.

End Rendering.

(** ** The recognised stream condition *)

(** The regular expressions the package needs: literal text and [.+],
    where [.] is any character but a newline. *)
Module Regexp.

Inductive atom := Lit (s : string) | DotPlus.

Fixpoint stripPrefix (p s : string) : option string :=
  match p, s with
  | EmptyString, _ => Some s
  | String a p', String b s' =>
      if Ascii.eqb a b then stripPrefix p' s' else None
  | String _ _, EmptyString => None
  end.

Definition isNewline (c : ascii) : bool := Ascii.eqb c "010"%char.

(** Does some prefix of [s] match the sequence [pat]? *)
Fixpoint matchHere (pat : list atom) : string -> bool :=
  match pat with
  | [] => fun _ => true
  | Lit l :: rest =>
      fun s =>
        match stripPrefix l s with
        | Some s' => matchHere rest s'
        | None => false
        end
  | DotPlus :: rest =>
      fix more (s : string) : bool :=
        match s with
        | EmptyString => false
        | String c s' =>
            if isNewline c then false else matchHere rest s' || more s'
        end
  end.

(** [MatchString]: the pattern is not anchored. *)
Fixpoint MatchString (pat : list atom) (s : string) : bool :=
  matchHere pat s
  || match s with
     | EmptyString => false
     | String _ s' => MatchString pat s'
     end.

End Regexp.

Definition terminatedContainerNotFoundRegex : list Regexp.atom :=
  [Regexp.Lit "previous terminated container "; Regexp.DotPlus;
   Regexp.Lit " in pod "; Regexp.DotPlus; Regexp.Lit " not found"].

(** A Go [error] is [None] (nil) or [Some] of its message. *)
Definition error := option string.

Definition isTerminatedContainerNotFound (err : error) : bool :=
  match err with
  | None => false
  | Some msg => Regexp.MatchString terminatedContainerNotFoundRegex msg
  end.


(** ** Handlers and the collaborators they call *)

(** What a collaborator hands back: a value, or a non-nil error with its
    message. *)
Inductive result (A : Type) :=
| Ok (a : A)
| Err (msg : string).
Arguments Ok {A} a.
Arguments Err {A} msg.

(** How a handler ends: [return err] with a non-nil error,
    [return v.FillObject(err.Error(), "err")], or
    [return v.FillObject(x, field)]. *)
Inductive HandlerResult (A : Type) :=
| Return (err : string)
| FillErr (msg : string)
| Fill (x : A) (field : string).
Arguments Return {A} err.
Arguments FillErr {A} msg.
Arguments Fill {A} x field.

(** [errors.Wrapf(err, msg)] *)
Definition Wrapf (err : string) (msg : string) : string := msg +:+ ": " +:+ err.

(** [schema.GroupVersionKind] *)
Record GroupVersionKind := {
  Group : string;
  Version : string;
  gvk_Kind : string
}.

Definition GroupVersionKind_eqb (a b : GroupVersionKind) : bool :=
  String.eqb (Group a) (Group b)
  && String.eqb (Version a) (Version b)
  && String.eqb (gvk_Kind a) (gvk_Kind b).

(** [schema.GroupVersion] and its [WithKind]. *)
Record GroupVersion := {
  gv_Group : string;
  gv_Version : string
}.

Definition WithKind (gv : GroupVersion) (kind : string) : GroupVersionKind :=
  {| Group := gv_Group gv; Version := gv_Version gv; gvk_Kind := kind |}.

(** [HelmReleaseKind]; [helmapi.HelmReleaseGVK.Kind] is the same string. *)
Definition HelmReleaseKind : string := "HelmRelease".

Definition fluxcdGroupVersion : GroupVersion :=
  {| gv_Group := "helm.toolkit.fluxcd.io"; gv_Version := "v2beta1" |}.

(** [unstructured.Unstructured], reduced to what the handlers consult;
    [u_GVK] is the value of its [GroupVersionKind()] method. *)
Record Unstructured := {
  u_GVK : GroupVersionKind;
  u_Namespace : string;
  u_Name : string
}.

(** *** [CollectPods] *)

(** The two arms of the [switch] in [CollectPods]. *)
Inductive PodCollectorChoice :=
| UseHelmReleasePodCollector
| UseNewPodCollector (gvk : GroupVersionKind).

Definition selectPodCollector (gvk : GroupVersionKind) : PodCollectorChoice :=
  if GroupVersionKind_eqb gvk (WithKind fluxcdGroupVersion HelmReleaseKind)
  then UseHelmReleasePodCollector
  else UseNewPodCollector gvk.

Section CollectPods.

(** A [PodCollector] with the client already supplied. *)
Definition PodCollector : Type :=
  Unstructured -> string -> list Unstructured * error.

Variable helmReleasePodCollector : PodCollector.
Variable NewPodCollector : GroupVersionKind -> PodCollector.

(** The value bridge: [v.LookupValue("value")] followed by
    [val.UnmarshalTo(obj)], and [v.GetString("cluster")]. *)
Variable Value : Type.
Variable lookupValue : result Value.
Variable getCluster : result string.
Variable unmarshalObj : Value -> result Unstructured.

Definition collectorOf (c : PodCollectorChoice) : PodCollector :=
  match c with
  | UseHelmReleasePodCollector => helmReleasePodCollector
  | UseNewPodCollector gvk => NewPodCollector gvk
  end.

Definition CollectPods : HandlerResult (list Unstructured) :=
  match lookupValue with
  | Err e => Return e
  | Ok val =>
      match getCluster with
      | Err e => Return e
      | Ok cluster =>
          match unmarshalObj val with
          | Err e => Return e
          | Ok obj =>
              let collector := collectorOf (selectPodCollector (u_GVK obj)) in
              match collector obj cluster with
              | (_, Some e) => FillErr e
              | (pods, None) => Fill pods "list"
              end
          end
      end
  end.

End CollectPods.

(** *** [GeneratorServiceEndpoints] *)

(** [FilterOption] and [Option] *)
Record FilterOption := {
  flt_Cluster : string;
  flt_ClusterNamespace : string;
  flt_Components : list string
}.

Record QueryOption := {
  opt_Name : string;
  opt_Namespace : string;
  opt_Filter : FilterOption
}.

(** An entry of [app.Status.AppliedResources]: the fields the loop reads
    and the group and version that its [GroupVersionKind()] reports. *)
Record ClusterObjectReference := {
  cor_Cluster : string;
  cor_Kind : string;
  cor_Namespace : string;
  cor_Name : string;
  cor_Group : string;
  cor_Version : string
}.

Definition resourceGVK (resource : ClusterObjectReference) : GroupVersionKind :=
  {| Group := cor_Group resource; Version := cor_Version resource;
     gvk_Kind := cor_Kind resource |}.

Record Application := {
  app_AppliedResources : list ClusterObjectReference
}.

(** [networkv1beta1.GroupName] *)
Definition networkGroupName : string := "networking.k8s.io".

(** What [cli.Get] reports to [findResource]. *)
Inductive GetResult (A : Type) :=
| Found (a : A)
| NotFound
| GetFailed (msg : string).
Arguments Found {A} a.
Arguments NotFound {A}.
Arguments GetFailed {A} msg.

(** [findResource]: a not-found object is no error and leaves the
    caller's object as it was prepared. *)
Definition findResource {A : Type} (get : GetResult A) (prepared : A)
  : A * error :=
  match get with
  | Found a => (a, None)
  | NotFound => (prepared, None)
  | GetFailed msg => (prepared, Some msg)
  end.

(** [gvk.ToAPIVersionAndKind], as [SetGroupVersionKind] stores it. *)
Definition typeMetaOf (gvk : GroupVersionKind) : TypeMeta :=
  {| Kind := gvk_Kind gvk;
     APIVersion := if String.eqb (Group gvk) "" then Version gvk
                   else Group gvk +:+ "/" +:+ Version gvk |}.

Definition namedMeta (name namespace : string) : ObjectMeta :=
  {| Name := name; Namespace := namespace; UID := ""; ResourceVersion := "";
     Annotations := ∅ |}.

Definition preparedIngress (gvk : GroupVersionKind) (name namespace : string)
  : Ingress :=
  {| ing_TypeMeta := typeMetaOf gvk; ing_ObjectMeta := namedMeta name namespace;
     ing_TLS := []; ing_Rules := [] |}.

Definition preparedService (gvk : GroupVersionKind) (name namespace : string)
  : Service :=
  {| svc_TypeMeta := typeMetaOf gvk; svc_ObjectMeta := namedMeta name namespace;
     svc_Type := ""; svc_Ports := []; svc_LoadBalancerIngress := [] |}.

Section GeneratorServiceEndpoints.

(** The object store, reached through [h.cli] with the cluster name in
    the context: arguments are name, namespace, cluster. *)
Variable getApplication : string -> string -> string -> GetResult Application.
Variable getIngress :
  GroupVersionKind -> string -> string -> string -> GetResult Ingress.
Variable getService :
  GroupVersionKind -> string -> string -> string -> GetResult Service.

(** [hc.CollectServices] and [hc.CollectIngress] of the helm-release
    collector for the release (namespace, name) on a cluster. *)
Variable CollectServices : string -> string -> string -> list Service * error.
Variable CollectIngress : string -> string -> string -> list Ingress * error.

(** [isResourceInTargetCluster] of the package. *)
Variable isResourceInTargetCluster :
  FilterOption -> ClusterObjectReference -> bool.

(** The value bridge: [v.LookupValue("app")] and [val.UnmarshalTo(&opt)],
    either of which ends the handler with its error. *)
Variable lookupOption : result QueryOption.

Definition supportedIngressVersion (resource : ClusterObjectReference) : bool :=
  String.eqb (Group (resourceGVK resource)) networkGroupName
  && (String.eqb (Version (resourceGVK resource)) "v1beta1"
      || String.eqb (Version (resourceGVK resource)) "v1").

Definition appendServices (acc : list ServiceEndpoint) (services : list Service)
  : list ServiceEndpoint :=
  fold_left (fun acc' service => acc' ++ generatorFromService service)
            services acc.

Definition appendIngresses (acc : list ServiceEndpoint) (ingress : list Ingress)
  : list ServiceEndpoint :=
  fold_left (fun acc' ing => acc' ++ generatorFromIngress ing) ingress acc.

(** One iteration of the loop over [app.Status.AppliedResources];
    [continue] leaves the accumulator as it is. *)
Definition resourceStep (filter : FilterOption)
    (serviceEndpoints : list ServiceEndpoint)
    (resource : ClusterObjectReference) : list ServiceEndpoint :=
  if negb (isResourceInTargetCluster filter resource) then serviceEndpoints
  else if String.eqb (cor_Kind resource) "Ingress" then
    if supportedIngressVersion resource then
      match findResource
              (getIngress (resourceGVK resource) (cor_Name resource)
                          (cor_Namespace resource) (cor_Cluster resource))
              (preparedIngress (resourceGVK resource) (cor_Name resource)
                               (cor_Namespace resource)) with
      | (_, Some _) => serviceEndpoints
      | (ingress, None) => serviceEndpoints ++ generatorFromIngress ingress
      end
    else serviceEndpoints
  else if String.eqb (cor_Kind resource) "Service" then
    match findResource
            (getService (resourceGVK resource) (cor_Name resource)
                        (cor_Namespace resource) (cor_Cluster resource))
            (preparedService (resourceGVK resource) (cor_Name resource)
                             (cor_Namespace resource)) with
    | (_, Some _) => serviceEndpoints
    | (service, None) => serviceEndpoints ++ generatorFromService service
    end
  else if String.eqb (cor_Kind resource) HelmReleaseKind then
    let '(services, _) :=
      CollectServices (cor_Namespace resource) (cor_Name resource)
                      (cor_Cluster resource) in
    let acc1 := appendServices serviceEndpoints services in
    let '(ingress, _) :=
      CollectIngress (cor_Namespace resource) (cor_Name resource)
                     (cor_Cluster resource) in
    appendIngresses acc1 ingress
  else serviceEndpoints.

Definition collectServiceEndpoints (filter : FilterOption)
    (resources : list ClusterObjectReference) : list ServiceEndpoint :=
  fold_left (resourceStep filter) resources [].

Definition GeneratorServiceEndpoints : HandlerResult (list ServiceEndpoint) :=
  match lookupOption with
  | Err e => Return e
  | Ok opt =>
      match findResource (getApplication (opt_Name opt) (opt_Namespace opt) "")
                         {| app_AppliedResources := [] |} with
      | (_, Some e) => Return ("query app failure " +:+ e)
      | (app, None) =>
          Fill (collectServiceEndpoints (opt_Filter opt)
                                        (app_AppliedResources app))
               "list"
      end
  end.

End GeneratorServiceEndpoints.

(** *** [CollectLogsInPod] *)

(** An instant ([metav1.Time]) as nanoseconds since the epoch, and a
    [time.Duration] as an [int64] count of nanoseconds.  [Time.Add] is
    exact on instants: only the duration handed to it is a machine
    integer. *)
Definition Time : Type := Z.
Definition Second : Z := 1000000000.
Definition Time_Add (t : Time) (d : Z) : Time := t + d.

(** [corev1.PodLogOptions]: the two pointers that bound the window;
    [SinceSeconds] is a [*int64]. *)
Record PodLogOptions := {
  Container : string;
  Previous : bool;
  SinceSeconds : option Z;
  SinceTime : option Time
}.

Record Pod := {
  CreationTimestamp : Time
}.

(** An open log stream as the reader sees it: the successful
    [ReadString] calls, then the first one that returns an error, with
    the text it still delivers. *)
Inductive ReadError :=
| EOF
| ReadFailed (msg : string).

Record LogStream := {
  reads : list string;
  lastRead : string;
  lastErr : ReadError
}.

(** The [outputs] object. *)
Record LogOutputs := {
  logs : string;
  fromDate : Time;
  toDate : Time;
  out_err : option string
}.

(** The read loop: every chunk is written to the builder; the loop
    breaks at the first error, which is kept unless it is [io.EOF]. *)
Definition readAll (s : LogStream) : string * error :=
  let b := fold_left (fun b chunk => b +:+ chunk) (reads s) "" in
  let b := b +:+ lastRead s in
  match lastErr s with
  | EOF => (b, None)
  | ReadFailed msg => (b, Some msg)
  end.

(** The [if / else if / else] that picks [fromDate]. *)
Definition resolveFromDate (opts : PodLogOptions) (toDate : Time) (podInst : Pod)
  : Time :=
  match SinceTime opts with
  | Some t => t
  | None =>
      match SinceSeconds opts with
      | Some s => Time_Add toDate (GoInt.mul64 (GoInt.neg64 s) (GoInt.int64 Second))
      | None => CreationTimestamp podInst
      end
  end.

Section CollectLogsInPod.

Variable Value : Type.

(** The value bridge. *)
Variable getCluster : result string.
Variable getNamespace : result string.
Variable getPod : result string.
Variable lookupOptions : result Value.
Variable unmarshalOptions : Value -> result PodLogOptions.

(** [kubernetes.NewForConfig], the pod getter and the log request of
    the client set (cluster, namespace, pod name). *)
Variable newClientSet : error.
Variable podsGet : string -> string -> string -> result Pod.
Variable Stream :
  string -> string -> string -> PodLogOptions -> result LogStream.

(** [v1.Now()], read after the stream has been consumed. *)
Variable Now : Time.

(** The tail of the handler, from [toDate := v1.Now()] on: the text
    read so far and [readErr] go into the [outputs] object. *)
Definition fillOutputs (opts : PodLogOptions) (podInst : Pod)
    (text : string) (readErr : error) : HandlerResult LogOutputs :=
  let toDate := Now in
  let fromDate := resolveFromDate opts toDate podInst in
  Fill {| logs := text; fromDate := fromDate; toDate := toDate;
          out_err := readErr |} "outputs".

Definition CollectLogsInPod : HandlerResult LogOutputs :=
  match getCluster with
  | Err e => Return (Wrapf e "invalid cluster")
  | Ok cluster =>
  match getNamespace with
  | Err e => Return (Wrapf e "invalid namespace")
  | Ok namespace =>
  match getPod with
  | Err e => Return (Wrapf e "invalid pod name")
  | Ok pod =>
  match lookupOptions with
  | Err e => Return (Wrapf e "invalid log options")
  | Ok val =>
  match unmarshalOptions val with
  | Err e => Return (Wrapf e "invalid log options content")
  | Ok opts =>
  match newClientSet with
  | Some e => Return (Wrapf e "failed to create kubernetes clientset")
  | None =>
  match podsGet cluster namespace pod with
  | Err e => Return (Wrapf e "failed to get pod")
  | Ok podInst =>
      match Stream cluster namespace pod opts with
      | Err e =>
          (* err != nil *)
          if negb (isTerminatedContainerNotFound (Some e))
          then Return (Wrapf e "failed to get stream logs")
          else (* nothing is read; readErr = err *)
            fillOutputs opts podInst "" (Some e)
      | Ok readCloser =>
          (* err == nil *)
          let '(text, readErr) := readAll readCloser in
          fillOutputs opts podInst text readErr
      end
  end end end end end end end.

End CollectLogsInPod.

(** * Further definitions *)

(** The addresses one load-balancer ingress entry offers: 0, 1 or 2. *)
Definition addressCount (ingress : LoadBalancerIngress) : nat :=
  ((if String.eqb (lb_Hostname ingress) "" then 0 else 1)
   + (if String.eqb (lb_IP ingress) "" then 0 else 1))%nat.


(** A non-empty text without a newline: what [.+] can match. *)
Fixpoint noNewline (s : string) : bool :=
  match s with
  | EmptyString => true
  | String c s' => negb (Regexp.isNewline c) && noNewline s'
  end.

Definition oneLine (s : string) : Prop := s <> "" /\ noNewline s = true.

(** The text of all chunks, in order. *)
Definition joinChunks (chunks : list string) : string :=
  fold_right String.append "" chunks.

(** ** Addon status *)

Module Addon.

Definition disabled : string := "disabled".
Definition enabled : string := "enabled".
Definition enabling : string := "enabling".
Definition disabling : string := "disabling".
Definition suspend : string := "suspend".

(** [app.Status], as far as [GetAddonStatus] reads it: the phase and
    the [Workflow] pointer with its [Suspend] flag. *)
Record WorkflowStatus := {
  Suspend : bool
}.

Record AppStatus := {
  Phase : string;
  Workflow : option WorkflowStatus
}.

(** [ObservabilityEnvironment] *)
Record ObservabilityEnvironment := {
  Cluster : string;
  Domain : string;
  LoadBalancerIP : string;
  ServiceExternalIP : string
}.

(** The four-key map stored per cluster in [Status.Clusters]. *)
Record ClusterAccess := {
  ca_domain : string;
  ca_loadBalancerIP : string;
  ca_access : string;
  ca_serviceExternalIP : string
}.

(** [Status]; a nil [Clusters] map reads as the empty map. *)
Record Status := {
  AddonPhase : string;
  AppStatusOf : option AppStatus;
  Clusters : gmap string ClusterAccess
}.

Definition zeroStatus : Status :=
  {| AddonPhase := ""; AppStatusOf := None; Clusters := ∅ |}.

(** [domains[i].ServiceExternalIP = ip] *)
Definition setServiceExternalIP (d : ObservabilityEnvironment) (ip : string)
  : ObservabilityEnvironment :=
  {| Cluster := Cluster d; Domain := Domain d;
     LoadBalancerIP := LoadBalancerIP d; ServiceExternalIP := ip |}.

(** The [if] on the Service's load-balancer ingress list: the IP of the
    entry when there is exactly one. *)
Definition soleIngressIP (svc : Service) : option string :=
  match svc_LoadBalancerIngress svc with
  | [entry] => Some (lb_IP entry)
  | _ => None
  end.

Section Observability.

(** [allocateDomainForAddon], the read of the endpoint Service in a
    member cluster (the [Get] and the JSON round trip into a typed
    Service, each of which ends the function with its error), and the
    read of that Service in the local cluster. *)
Variable allocateDomainForAddon : result (list ObservabilityEnvironment).
Variable getClusterService : string -> result Service.
Variable getLocalService : result Service.

(** The loop over [domains], which writes [domains[i]] in place and
    returns at the first failing read. *)
Fixpoint fillExternalIPs (domains : list ObservabilityEnvironment)
  : result (list ObservabilityEnvironment) :=
  match domains with
  | [] => Ok []
  | d :: rest =>
      match getClusterService (Cluster d) with
      | Err e => Err e
      | Ok svc =>
          let d' := match soleIngressIP svc with
                    | Some ip => setServiceExternalIP d ip
                    | None => d
                    end in
          match fillExternalIPs rest with
          | Err e => Err e
          | Ok rest' => Ok (d' :: rest')
          end
      end
  end.

Definition GetObservabilityAccessibilityInfo (domain : string)
  : result (list ObservabilityEnvironment) :=
  match allocateDomainForAddon with
  | Err e => Err e
  | Ok domains =>
      match fillExternalIPs domains with
      | Err e => Err e
      | Ok domains =>
          if len domains =? 0 then
            match getLocalService with
            | Err e => Err e
            | Ok svc =>
                match soleIngressIP svc with
                | Some ip =>
                    Ok [ {| Cluster := ""; Domain := ""; LoadBalancerIP := "";
                            ServiceExternalIP := ip |} ]
                | None => Ok domains
                end
            end
          else Ok domains
      end
  end.

(** Constants of other packages: the application phases, the name of
    the observability addon and the key of its domain argument. *)
Variable ApplicationRunning : string.
Variable ApplicationDeleting : string.
Variable ObservabilityAddon : string.
Variable ObservabilityAddonDomainArg : string.

(** [FetchAddonRelatedApp], reduced to the status of the application it
    finds, and the read of the observability secret's data. *)
Variable FetchAddonRelatedApp : string -> GetResult AppStatus.
Variable getSecretData : result (gmap string string).

Definition accessOf (o : ObservabilityEnvironment) : string :=
  if negb (String.eqb (LoadBalancerIP o) "")
  then "Visiting URL: " +:+ Domain o +:+ ", IP: " +:+ LoadBalancerIP o
  else "No loadBalancer found, visiting by using 'vela port-forward "
         +:+ ObservabilityAddon.

Definition clusterEntry (o : ObservabilityEnvironment) : ClusterAccess :=
  {| ca_domain := Domain o; ca_loadBalancerIP := LoadBalancerIP o;
     ca_access := accessOf o; ca_serviceExternalIP := ServiceExternalIP o |}.

(** The loop [clusters[o.Cluster] = ...]. *)
Definition clustersOf (observability : list ObservabilityEnvironment)
  : gmap string ClusterAccess :=
  fold_left (fun clusters o => <[Cluster o := clusterEntry o]> clusters)
            observability ∅.

Definition isSuspended (app : AppStatus) : bool :=
  match Workflow app with
  | Some w => Suspend w
  | None => false
  end.

Definition GetAddonStatus (name : string) : Status * error :=
  match FetchAddonRelatedApp name with
  | NotFound =>
      ({| AddonPhase := disabled; AppStatusOf := None; Clusters := ∅ |}, None)
  | GetFailed e => (zeroStatus, Some e)
  | Found app =>
      if isSuspended app then
        ({| AddonPhase := suspend; AppStatusOf := Some app; Clusters := ∅ |}, None)
      else if String.eqb (Phase app) ApplicationRunning then
        if String.eqb name ObservabilityAddon then
          match getSecretData with
          | Err _ =>
              ({| AddonPhase := enabling; AppStatusOf := Some app;
                  Clusters := ∅ |}, None)
          | Ok data =>
              let domain := default "" (data !! ObservabilityAddonDomainArg) in
              match GetObservabilityAccessibilityInfo domain with
              | Err _ =>
                  ({| AddonPhase := enabling; AppStatusOf := Some app;
                      Clusters := ∅ |}, None)
              | Ok observability =>
                  ({| AddonPhase := enabled; AppStatusOf := Some app;
                      Clusters := clustersOf observability |}, None)
              end
          end
        else
          ({| AddonPhase := enabled; AppStatusOf := Some app; Clusters := ∅ |},
           None)
      else if String.eqb (Phase app) ApplicationDeleting then
        ({| AddonPhase := disabling; AppStatusOf := Some app; Clusters := ∅ |},
         None)
      else
        ({| AddonPhase := enabling; AppStatusOf := Some app; Clusters := ∅ |},
         None)
  end.

End Observability.

End Addon.

(** ** Application webhooks *)

Module Webhook.

(** The errors of the use case: the [bcode] values it returns itself,
    and any other error, which it passes on as it is. *)
Inductive Error :=
| ErrInvalidWebhookToken
| ErrApplicationNotExist
| ErrInvalidWebhookPayloadType
| ErrInvalidWebhookPayloadBody
| ErrApplicationComponetNotExist
| Other (msg : string).

(** What [ds.Get] reports: the record, [datastore.ErrRecordNotExist],
    or another error. *)
Inductive DsResult (A : Type) :=
| DsFound (a : A)
| DsNotExist
| DsFailed (e : Error).
Arguments DsFound {A} a.
Arguments DsNotExist {A}.
Arguments DsFailed {A} e.

(** *** The handler registry *)

Section Registry.

(** [model.PayloadTypeCustom] and [model.PayloadTypeACR]. *)
Variable PayloadTypeCustom : string.
Variable PayloadTypeACR : string.

(** The two [install] methods append to the package variable
    [WebhookHandlers], here the state that is passed along. *)
Definition customInstall (WebhookHandlers : list string) : list string :=
  WebhookHandlers ++ [PayloadTypeCustom].

Definition acrInstall (WebhookHandlers : list string) : list string :=
  WebhookHandlers ++ [PayloadTypeACR].

Definition registerHandlers (WebhookHandlers : list string) : list string :=
  acrInstall (customInstall WebhookHandlers).

(** [NewWebhookUsecase], for its effect on [WebhookHandlers]. *)
Definition NewWebhookUsecase (WebhookHandlers : list string) : list string :=
  registerHandlers WebhookHandlers.

End Registry.

(** *** The custom handler *)

Section CustomHandler.

(** The datastore, the component properties and the deploy response
    are those of other packages. *)
Variable DS : Type.
Variable Props : Type.
Variable CodeInfo : Type.
Variable Response : Type.

Record ApplicationComponent := {
  comp_AppPrimaryKey : string;
  comp_Name : string;
  comp_Properties : Props
}.

Record ApplicationTrigger := {
  Token : string;
  AppPrimaryKey : string;
  WorkflowName : string;
  PayloadType : string
}.

(** [apisv1.ApplicationDeployRequest], as the custom handler fills it. *)
Record ApplicationDeployRequest := {
  req_WorkflowName : string;
  req_Note : string;
  req_TriggerType : string;
  req_Force : bool;
  req_CodeInfo : CodeInfo
}.

(** [ds.Get] of a component by application and name, [ds.Put], the
    merge of a patch into properties ([envbinding.MergeRawExtension]
    followed by [model.NewJSONStructByStruct]) and
    [applicationUsecase.Deploy] for the application at hand. *)
Variable dsGetComponent : DS -> string -> string -> DsResult ApplicationComponent.
Variable dsPut : DS -> ApplicationComponent -> DS * option Error.
Variable mergeProperties : Props -> Props -> Error + Props.
Variable Deploy : DS -> ApplicationDeployRequest -> DS * (Error + Response).

(** [apisv1.TriggerTypeWebhook] *)
Variable TriggerTypeWebhook : string.

Definition patchComponentProperties (ds : DS) (component : ApplicationComponent)
    (patch : Props) : DS * option Error :=
  match mergeProperties (comp_Properties component) patch with
  | inl e => (ds, Some e)
  | inr prop =>
      dsPut ds {| comp_AppPrimaryKey := comp_AppPrimaryKey component;
                  comp_Name := comp_Name component;
                  comp_Properties := prop |}
  end.

(** The loop over [c.req.Upgrade], in the order in which the map is
    traversed; it returns at the first error. *)
Fixpoint patchAll (webhookTrigger : ApplicationTrigger) (ds : DS)
    (upgrade : list (string * Props)) : DS * option Error :=
  match upgrade with
  | [] => (ds, None)
  | (comp, properties) :: rest =>
      match dsGetComponent ds (AppPrimaryKey webhookTrigger) comp with
      | DsNotExist => (ds, Some ErrApplicationComponetNotExist)
      | DsFailed e => (ds, Some e)
      | DsFound component =>
          match patchComponentProperties ds component properties with
          | (ds', Some e) => (ds', Some e)
          | (ds', None) => patchAll webhookTrigger ds' rest
          end
      end
  end.

Definition customHandle (webhookTrigger : ApplicationTrigger) (ds : DS)
    (upgrade : list (string * Props)) (codeInfo : CodeInfo)
  : DS * (Error + Response) :=
  match patchAll webhookTrigger ds upgrade with
  | (ds', Some e) => (ds', inl e)
  | (ds', None) =>
      Deploy ds' {| req_WorkflowName := WorkflowName webhookTrigger;
                    req_Note := "triggered by webhook custom";
                    req_TriggerType := TriggerTypeWebhook;
                    req_Force := true;
                    req_CodeInfo := codeInfo |}
  end.

End CustomHandler.

End Webhook.

(** ** Further sample objects *)

Module MoreSamples.

Definition tlsB : IngressTLS :=
  {| tls_Hosts := ["b.example.com"]; tls_SecretName := "cert-b" |}.

(** An https-port annotation that is not a number. *)
Definition ingBadPort : Ingress :=
  {| ing_TypeMeta := {| Kind := "Ingress"; APIVersion := "networking.k8s.io/v1" |};
     ing_ObjectMeta :=
       {| Name := "gateway"; Namespace := "default"; UID := "uid-3";
          ResourceVersion := "11";
          Annotations := {[ AnnoIngressControllerHTTPSPort := "https" ]} |};
     ing_TLS := [{| tls_Hosts := []; tls_SecretName := "wildcard" |}];
     ing_Rules := [{| rule_Host := "a.example.com";
                      rule_HTTP := Some [{| path_Path := "/" |};
                                         {| path_Path := "/api" |}] |}] |}.

(** A helm release whose collector returns one Service and reports an
    error for the Ingresses. *)
Definition redisRelease : ClusterObjectReference :=
  {| cor_Cluster := "edge"; cor_Kind := "HelmRelease"; cor_Namespace := "default";
     cor_Name := "redis"; cor_Group := "helm.toolkit.fluxcd.io";
     cor_Version := "v2beta1" |}.
Definition releaseServices (_ _ _ : string) : list Service * error :=
  ([{| svc_TypeMeta := {| Kind := "Service"; APIVersion := "v1" |};
       svc_ObjectMeta := namedMeta "redis" "default";
       svc_Type := ServiceTypeNodePort;
       svc_Ports := [{| sp_Name := "redis"; sp_Protocol := "TCP";
                        sp_Port := 6379; sp_NodePort := 31379 |}];
       svc_LoadBalancerIngress := [] |}], None).
Definition releaseIngresses (_ _ _ : string) : list Ingress * error :=
  ([], Some "forbidden").

(** A log stream that breaks after one full line and a partial one. *)
Definition streamBroken (_ _ _ : string) (_ : PodLogOptions) : result LogStream :=
  Ok {| reads := ["one"]; lastRead := "tw";
        lastErr := ReadFailed "connection reset" |}.

(** Addon status: two member clusters, the first with a load balancer
    that has a single ingress IP. *)
Definition envOf (cluster domain lbip : string) : Addon.ObservabilityEnvironment :=
  {| Addon.Cluster := cluster; Addon.Domain := domain;
     Addon.LoadBalancerIP := lbip; Addon.ServiceExternalIP := "" |}.
Definition twoClusters : list Addon.ObservabilityEnvironment :=
  [envOf "east" "east.example.com" "10.1.0.1"; envOf "west" "" ""].
Definition endpointService (entries : list LoadBalancerIngress) : Service :=
  {| svc_TypeMeta := {| Kind := "Service"; APIVersion := "v1" |};
     svc_ObjectMeta := namedMeta "grafana" "vela-system";
     svc_Type := ServiceTypeLoadBalancer; svc_Ports := [];
     svc_LoadBalancerIngress := entries |}.
Definition clusterServices (cluster : string) : result Service :=
  if String.eqb cluster "east"
  then Ok (endpointService [{| lb_IP := "192.0.2.10"; lb_Hostname := "" |}])
  else Ok (endpointService []).
Definition runningApp : Addon.AppStatus :=
  {| Addon.Phase := "running"; Addon.Workflow := None |}.
Definition fetchRunning (_ : string) : GetResult Addon.AppStatus := Found runningApp.

(** A component store as a map from component name to properties (a
    text), in which [worker] is missing. *)
Definition storeGet (ds : gmap string string) (app name : string)
  : Webhook.DsResult (Webhook.ApplicationComponent string) :=
  match ds !! name with
  | Some props =>
      Webhook.DsFound {| Webhook.comp_AppPrimaryKey := app;
                         Webhook.comp_Name := name;
                         Webhook.comp_Properties := props |}
  | None => Webhook.DsNotExist
  end.
Definition storePut (ds : gmap string string)
    (c : Webhook.ApplicationComponent string)
  : gmap string string * option Webhook.Error :=
  (<[Webhook.comp_Name _ c := Webhook.comp_Properties _ c]> ds, None).
Definition overwrite (_ patch : string) : Webhook.Error + string := inr patch.
Definition deployed (ds : gmap string string)
    (_ : Webhook.ApplicationDeployRequest unit)
  : gmap string string * (Webhook.Error + string) := (ds, inr "deployed").
Definition trigger : Webhook.ApplicationTrigger :=
  {| Webhook.Token := "t0"; Webhook.AppPrimaryKey := "shop";
     Webhook.WorkflowName := "default"; Webhook.PayloadType := "custom" |}.
Definition componentStore : gmap string string :=
  {[ "web" := "image: v1" ]}.

End MoreSamples.
(** ** The derivation rules as the specification words them *)

(** Load-balancer rule: one endpoint per (port, ingress entry) pair,
    whose host is the hostname when there is one and the IP otherwise. *)
Definition specLoadBalancerEndpoints (service : Service) : list ServiceEndpoint :=
  flat_map
    (fun port =>
       map (fun ingress =>
              lbEndpoint service port
                (if String.eqb (lb_Hostname ingress) "" then lb_IP ingress
                 else lb_Hostname ingress))
           (svc_LoadBalancerIngress service))
    (svc_Ports service).

(** What the code appends for one (port, ingress entry) pair. *)
Definition lbPairEndpoints (service : Service) (port : ServicePort)
    (ingress : LoadBalancerIngress) : list ServiceEndpoint :=
  (if String.eqb (lb_Hostname ingress) "" then []
   else [lbEndpoint service port (lb_Hostname ingress)])
  ++ (if String.eqb (lb_IP ingress) "" then []
      else [lbEndpoint service port (lb_IP ingress)]).

(** Ingress rule: only rules with a non-empty host and an HTTP section
    contribute, one endpoint per path. *)
Definition specIngressEndpoints (ingress : Ingress) : list ServiceEndpoint :=
  flat_map
    (fun rule =>
       match rule_HTTP rule with
       | Some paths =>
           if String.eqb (rule_Host rule) "" then []
           else
             let appProtocol := getAppProtocol ingress (rule_Host rule) in
             map (ingressEndpoint ingress rule appProtocol
                                  (getEndpointPort ingress appProtocol))
                 paths
       | None => []
       end)
    (ing_Rules ingress).

(** What the code appends for one rule. *)
Definition ruleEndpoints (ingress : Ingress) (rule : IngressRule)
  : list ServiceEndpoint :=
  match rule_HTTP rule with
  | Some paths =>
      let appProtocol := getAppProtocol ingress (rule_Host rule) in
      map (ingressEndpoint ingress rule appProtocol
                           (getEndpointPort ingress appProtocol))
          paths
  | None => []
  end.

(** Some TLS entry lists the host, or some TLS entry lists no host. *)
Definition tlsCovers (ingress : Ingress) (host : string) : Prop :=
  exists tls, In tls (ing_TLS ingress)
              /\ (In host (tls_Hosts tls) \/ tls_Hosts tls = []).

(** ** Sample objects *)

Module Samples.

Definition meta (name : string) : ObjectMeta :=
  {| Name := name; Namespace := "default"; UID := "uid-1";
     ResourceVersion := "7"; Annotations := ∅ |}.

Definition svcMeta : TypeMeta := {| Kind := "Service"; APIVersion := "v1" |}.
Definition ingMeta : TypeMeta :=
  {| Kind := "Ingress"; APIVersion := "networking.k8s.io/v1beta1" |}.

Definition web : ServicePort :=
  {| sp_Name := "web"; sp_Protocol := "TCP"; sp_Port := 80; sp_NodePort := 30080 |}.
Definition dns : ServicePort :=
  {| sp_Name := "dns"; sp_Protocol := "UDP"; sp_Port := 53; sp_NodePort := 30053 |}.

Definition byName : LoadBalancerIngress :=
  {| lb_IP := ""; lb_Hostname := "lb.example.com" |}.
Definition byIP : LoadBalancerIngress :=
  {| lb_IP := "10.0.0.7"; lb_Hostname := "" |}.
Definition byBoth : LoadBalancerIngress :=
  {| lb_IP := "10.0.0.7"; lb_Hostname := "lb.example.com" |}.

Definition service (type : string) (ports : list ServicePort)
    (entries : list LoadBalancerIngress) : Service :=
  {| svc_TypeMeta := svcMeta; svc_ObjectMeta := meta "front";
     svc_Type := type; svc_Ports := ports;
     svc_LoadBalancerIngress := entries |}.

Definition lbTwoByTwo : Service :=
  service ServiceTypeLoadBalancer [web; dns] [byName; byIP].
Definition lbBoth : Service :=
  service ServiceTypeLoadBalancer [web] [byBoth].
Definition nodePortSvc : Service :=
  service ServiceTypeNodePort [web; dns] [].
Definition clusterIPSvc : Service :=
  service ServiceTypeClusterIP [web; dns] [].

Definition root : HTTPIngressPath := {| path_Path := "/" |}.
Definition api : HTTPIngressPath := {| path_Path := "/api" |}.

Definition ingress (annotations : gmap string string)
    (tls : list IngressTLS) (rules : list IngressRule) : Ingress :=
  {| ing_TypeMeta := ingMeta;
     ing_ObjectMeta :=
       {| Name := "gateway"; Namespace := "default"; UID := "uid-2";
          ResourceVersion := "9"; Annotations := annotations |};
     ing_TLS := tls; ing_Rules := rules |}.

Definition ruleA : IngressRule :=
  {| rule_Host := "a.example.com"; rule_HTTP := Some [root; api] |}.
Definition ruleB : IngressRule :=
  {| rule_Host := "b.example.com"; rule_HTTP := Some [root] |}.
Definition ruleNoHost : IngressRule :=
  {| rule_Host := ""; rule_HTTP := Some [root] |}.
Definition ruleNoHTTP : IngressRule :=
  {| rule_Host := "c.example.com"; rule_HTTP := None |}.

Definition tlsA : IngressTLS :=
  {| tls_Hosts := ["a.example.com"]; tls_SecretName := "cert-a" |}.

Definition ingAB : Ingress := ingress ∅ [tlsA] [ruleA; ruleB].
Definition ingNoHost : Ingress := ingress ∅ [] [ruleNoHost].

(** An https-port annotation that is a positive integer but does not
    fit the endpoint's [int32] port. *)
Definition ingWidePort : Ingress :=
  ingress {[ AnnoIngressControllerHTTPSPort := "4294967296" ]} [tlsA] [ruleB; ruleA].
Definition ing8443 : Ingress :=
  ingress {[ AnnoIngressControllerHTTPSPort := "8443" ]} [tlsA] [ruleA].

(** Applied resources: an Ingress of an API group the loop does not
    support, next to a Service. *)
Definition extIngress : ClusterObjectReference :=
  {| cor_Cluster := "edge"; cor_Kind := "Ingress"; cor_Namespace := "default";
     cor_Name := "gateway"; cor_Group := "extensions"; cor_Version := "v1beta1" |}.
Definition frontService : ClusterObjectReference :=
  {| cor_Cluster := "edge"; cor_Kind := "Service"; cor_Namespace := "default";
     cor_Name := "front"; cor_Group := ""; cor_Version := "v1" |}.

Definition noFilter : FilterOption :=
  {| flt_Cluster := ""; flt_ClusterNamespace := ""; flt_Components := [] |}.
Definition appOption : QueryOption :=
  {| opt_Name := "shop"; opt_Namespace := "default"; opt_Filter := noFilter |}.

(** An object store that holds one application, the Service [front]
    and the Ingress [gateway]. *)
Definition storeApplication (_ _ _ : string) : GetResult Application :=
  Found {| app_AppliedResources := [extIngress; frontService] |}.
Definition storeIngress (_ : GroupVersionKind) (_ _ _ : string)
  : GetResult Ingress := Found ingAB.
Definition storeService (_ : GroupVersionKind) (_ _ _ : string)
  : GetResult Service := Found nodePortSvc.
Definition noServices (_ _ _ : string) : list Service * error := ([], None).
Definition noIngresses (_ _ _ : string) : list Ingress * error := ([], None).
Definition everywhere (_ : FilterOption) (_ : ClusterObjectReference) : bool :=
  true.

(** Log collection: a pod created at [created], the clock at [clock]. *)
Definition created : Time := 1600000000 * Second.
Definition clock : Time := 1700000000 * Second.
Definition pod : Pod := {| CreationTimestamp := created |}.

Definition optsSince (seconds : option Z) (since : option Time) : PodLogOptions :=
  {| Container := "main"; Previous := true;
     SinceSeconds := seconds; SinceTime := since |}.

Definition notFoundMsg : string :=
  "previous terminated container main in pod front-0 not found".

Definition unmarshalTo (o : PodLogOptions) : result PodLogOptions := Ok o.
Definition podStore (_ _ _ : string) : result Pod := Ok pod.
Definition streamGone (_ _ _ : string) (_ : PodLogOptions) : result LogStream :=
  Err notFoundMsg.
Definition streamTwoLines (_ _ _ : string) (_ : PodLogOptions)
  : result LogStream :=
  Ok {| reads := ["one"; "two"]; lastRead := ""; lastErr := EOF |}.

(** Pod collection. *)
Definition helmRelease : Unstructured :=
  {| u_GVK := WithKind fluxcdGroupVersion HelmReleaseKind;
     u_Namespace := "default"; u_Name := "redis" |}.
Definition helmReleaseV2 : Unstructured :=
  {| u_GVK := {| Group := "helm.toolkit.fluxcd.io"; Version := "v2";
                 gvk_Kind := "HelmRelease" |};
     u_Namespace := "default"; u_Name := "redis" |}.
Definition podOf (name : string) : Unstructured :=
  {| u_GVK := {| Group := ""; Version := "v1"; gvk_Kind := "Pod" |};
     u_Namespace := "default"; u_Name := name |}.
Definition helmPods : PodCollector :=
  fun _ _ => ([podOf "redis-0"], None).
Definition genericPods (_ : GroupVersionKind) : PodCollector :=
  fun obj _ => ([podOf (u_Name obj)], None).

(** Rendering. *)
Definition epOf (protocol : string) (app : option string) (host : string)
    (port : Z) (path : string) : ServiceEndpoint :=
  {| endpoint := {| Protocol := protocol; AppProtocol := app; Host := host;
                    Port := port; Path := path |};
     Ref := serviceRef lbBoth |}.

End Samples.

(** ** Lemmas on the loops *)

Lemma fold_left_append_flat_map {A B : Type} (f : A -> list B) (l : list A)
    (acc : list B) :
  fold_left (fun acc' x => acc' ++ f x) l acc = acc ++ flat_map f l.
Proof.
  revert acc. induction l as [|x l IH]; intros acc; simpl.
  - now rewrite app_nil_r.
  - rewrite IH. now rewrite <- app_assoc.
Qed.

Lemma fold_left_ext_step {A B : Type} (f g : B -> A -> B) (l : list A) (acc : B) :
  (forall b a, f b a = g b a) -> fold_left f l acc = fold_left g l acc.
Proof.
  intros Hfg. revert acc. induction l as [|x l IH]; intros acc; simpl; auto.
  rewrite Hfg. apply IH.
Qed.

Lemma fold_left_append_one {A B : Type} (f : A -> B) (l : list A) (acc : list B) :
  fold_left (fun acc' x => acc' ++ [f x]) l acc = acc ++ map f l.
Proof.
  rewrite (fold_left_append_flat_map (fun x => [f x])).
  f_equal; try (induction l as [|x l IH]; simpl; congruence).
Qed.

Lemma lbIngressStep_append service port acc ingress :
  lbIngressStep service port acc ingress
  = acc ++ lbPairEndpoints service port ingress.
Proof.
  unfold lbIngressStep, lbPairEndpoints.
  destruct (String.eqb (lb_Hostname ingress) ""),
           (String.eqb (lb_IP ingress) ""); simpl;
    rewrite <- ?app_assoc, ?app_nil_r; reflexivity.
Qed.

Lemma lbPortStep_append service acc port :
  lbPortStep service acc port
  = acc ++ flat_map (lbPairEndpoints service port)
                    (svc_LoadBalancerIngress service).
Proof.
  unfold lbPortStep.
  rewrite (fold_left_ext_step _ (fun a i => a ++ lbPairEndpoints service port i)).
  - apply fold_left_append_flat_map.
  - intros; apply lbIngressStep_append.
Qed.

Lemma generatorFromService_LoadBalancer service :
  svc_Type service = ServiceTypeLoadBalancer ->
  generatorFromService service
  = flat_map (fun port => flat_map (lbPairEndpoints service port)
                                   (svc_LoadBalancerIngress service))
             (svc_Ports service).
Proof.
  intros Ht. unfold generatorFromService. rewrite Ht. simpl.
  rewrite (fold_left_ext_step _
             (fun a p => a ++ flat_map (lbPairEndpoints service p)
                                       (svc_LoadBalancerIngress service))).
  - now rewrite fold_left_append_flat_map.
  - intros; apply lbPortStep_append.
Qed.

Lemma ingressRuleStep_append ingress acc rule :
  ingressRuleStep ingress acc rule = acc ++ ruleEndpoints ingress rule.
Proof.
  unfold ingressRuleStep, ruleEndpoints.
  destruct (rule_HTTP rule) as [paths|].
  - apply fold_left_append_one.
  - now rewrite app_nil_r.
Qed.

Lemma generatorFromIngress_flat_map ingress :
  generatorFromIngress ingress
  = flat_map (ruleEndpoints ingress) (ing_Rules ingress).
Proof.
  unfold generatorFromIngress.
  rewrite (fold_left_ext_step _ (fun a r => a ++ ruleEndpoints ingress r)).
  - now rewrite fold_left_append_flat_map.
  - intros; apply ingressRuleStep_append.
Qed.

(** ** Endpoints of a Service *)

(** Testable property 1: two ports and two ingress entries, one by
    hostname and one by IP, give four endpoints. *)
Example loadBalancer_two_by_two :
  map (fun e => (Host (endpoint e), Port (endpoint e), Protocol (endpoint e)))
      (generatorFromService Samples.lbTwoByTwo)
  = [("lb.example.com", 80, "TCP"); ("10.0.0.7", 80, "TCP");
     ("lb.example.com", 53, "UDP"); ("10.0.0.7", 53, "UDP")].
Proof. reflexivity. Qed.

(** C1, as stated, fails: an ingress entry that carries both a hostname
    and an IP yields two endpoints for its single (port, entry) pair,
    where the specification's rule yields one. *)
Lemma C1_entry_with_hostname_and_ip :
  svc_Type Samples.lbBoth = ServiceTypeLoadBalancer
  /\ (List.length (svc_Ports Samples.lbBoth)
      * List.length (svc_LoadBalancerIngress Samples.lbBoth) = 1)%nat
  /\ map (fun e => Host (endpoint e)) (generatorFromService Samples.lbBoth)
     = ["lb.example.com"; "10.0.0.7"]
  /\ map (fun e => Host (endpoint e)) (specLoadBalancerEndpoints Samples.lbBoth)
     = ["lb.example.com"]
  /\ generatorFromService Samples.lbBoth
     <> specLoadBalancerEndpoints Samples.lbBoth.
Proof.
  repeat split; try reflexivity.
  intros H. apply (f_equal (@List.length _)) in H. vm_compute in H. discriminate.
Qed.

(** C1, amended: for a Service of type LoadBalancer the result is, in
    port order and then ingress-entry order, for each (service port,
    ingress entry) pair: an endpoint whose host is the hostname when the
    hostname is non-empty, followed by an endpoint whose host is the IP
    when the IP is non-empty; each carries the service port's protocol
    and port.  When every entry has exactly one of the two, this is one
    endpoint per pair, as the specification's rule says. *)
Theorem C1_loadBalancer_endpoints (service : Service) :
  svc_Type service = ServiceTypeLoadBalancer ->
  generatorFromService service
  = flat_map
      (fun port =>
         flat_map
           (fun ingress =>
              (if String.eqb (lb_Hostname ingress) "" then []
               else [ {| endpoint :=
                           {| Protocol := sp_Protocol port; AppProtocol := None;
                              Host := lb_Hostname ingress; Port := sp_Port port;
                              Path := "" |};
                         Ref := serviceRef service |} ])
              ++ (if String.eqb (lb_IP ingress) "" then []
                  else [ {| endpoint :=
                              {| Protocol := sp_Protocol port; AppProtocol := None;
                                 Host := lb_IP ingress; Port := sp_Port port;
                                 Path := "" |};
                            Ref := serviceRef service |} ]))
           (svc_LoadBalancerIngress service))
      (svc_Ports service)
  /\ ((forall ingress, In ingress (svc_LoadBalancerIngress service) ->
         String.eqb (lb_Hostname ingress) ""
         = negb (String.eqb (lb_IP ingress) "")) ->
      generatorFromService service = specLoadBalancerEndpoints service).
Proof.
  intros Ht. split.
  - now rewrite generatorFromService_LoadBalancer.
  - intros Hone. rewrite generatorFromService_LoadBalancer by assumption.
    unfold specLoadBalancerEndpoints.
    apply flat_map_ext. intros port.
    induction (svc_LoadBalancerIngress service) as [|i l IH]; simpl; auto.
    rewrite IH by (intros; apply Hone; now right).
    f_equal. unfold lbPairEndpoints.
    specialize (Hone i (or_introl eq_refl)).
    destruct (String.eqb (lb_Hostname i) ""), (String.eqb (lb_IP i) "");
      simpl in *; try discriminate; reflexivity.
Qed.

Lemma C1_loadBalancer_endpoints_witness :
  generatorFromService Samples.lbTwoByTwo
  = specLoadBalancerEndpoints Samples.lbTwoByTwo.
Proof.
  apply (C1_loadBalancer_endpoints Samples.lbTwoByTwo).
  - reflexivity.
  - intros ingress [<-|[<-|[]]]; reflexivity.
Defined.

(** Testable properties 2 and 3. *)
Example nodePort_two_ports :
  map (fun e => (Host (endpoint e), Port (endpoint e)))
      (generatorFromService Samples.nodePortSvc)
  = [("", 30080); ("", 30053)].
Proof. reflexivity. Qed.

Example clusterIP_no_endpoint :
  generatorFromService Samples.clusterIPSvc = [].
Proof. reflexivity. Qed.

(** C5: a Service of type NodePort yields exactly one endpoint per
    service port, in order, with an empty host and the port's node-port
    number; a Service of type ClusterIP or ExternalName yields none. *)
Theorem C5_nodePort_and_internal_services (service : Service) :
  (svc_Type service = ServiceTypeNodePort ->
   generatorFromService service
   = map (fun port =>
            {| endpoint :=
                 {| Protocol := sp_Protocol port; AppProtocol := None;
                    Host := ""; Port := sp_NodePort port; Path := "" |};
               Ref := serviceRef service |})
         (svc_Ports service)
   /\ List.length (generatorFromService service)
      = List.length (svc_Ports service))
  /\ (svc_Type service = ServiceTypeClusterIP
      \/ svc_Type service = ServiceTypeExternalName ->
      generatorFromService service = []).
Proof.
  split.
  - intros Ht.
    assert (E : generatorFromService service
                = map (nodePortEndpoint service) (svc_Ports service)).
    { unfold generatorFromService. rewrite Ht. simpl.
      unfold nodePortStep. now rewrite fold_left_append_one. }
    split; [exact E | rewrite E; apply length_map].
  - intros [Ht|Ht]; unfold generatorFromService; rewrite Ht; reflexivity.
Qed.

Lemma C5_nodePort_and_internal_services_witness :
  List.length (generatorFromService Samples.nodePortSvc) = 2%nat
  /\ generatorFromService Samples.clusterIPSvc = [].
Proof.
  split.
  - apply (proj1 (C5_nodePort_and_internal_services Samples.nodePortSvc)).
    reflexivity.
  - apply (proj2 (C5_nodePort_and_internal_services Samples.clusterIPSvc)).
    left. reflexivity.
Defined.

(** ** Endpoints of an Ingress *)

(** C2, as stated, fails: a rule whose host is empty still contributes
    one endpoint per path (with an empty host). *)
Lemma C2_rule_without_host_contributes :
  map rule_Host (ing_Rules Samples.ingNoHost) = [""]
  /\ map (fun e => (Host (endpoint e), Path (endpoint e)))
         (generatorFromIngress Samples.ingNoHost) = [("", "/")]
  /\ specIngressEndpoints Samples.ingNoHost = []
  /\ generatorFromIngress Samples.ingNoHost
     <> specIngressEndpoints Samples.ingNoHost.
Proof.
  repeat split; try reflexivity.
  intros H. apply (f_equal (@List.length _)) in H. vm_compute in H. discriminate.
Qed.

(** C2, amended: an Ingress yields, in rule order, one endpoint per path
    of each rule that has an HTTP section, whatever the rule's host; the
    endpoint carries the rule's host and the path; rules without an HTTP
    section contribute no endpoint. *)
Theorem C2_one_endpoint_per_path (ingress : Ingress) :
  generatorFromIngress ingress
  = flat_map
      (fun rule =>
         match rule_HTTP rule with
         | Some paths =>
             map (fun path =>
                    {| endpoint :=
                         {| Protocol := ProtocolTCP;
                            AppProtocol :=
                              Some (getAppProtocol ingress (rule_Host rule));
                            Host := rule_Host rule;
                            Port :=
                              GoInt.int32
                                (getEndpointPort ingress
                                   (getAppProtocol ingress (rule_Host rule)));
                            Path := path_Path path |};
                       Ref := ingressRef ingress |})
                 paths
         | None => []
         end)
      (ing_Rules ingress)
  /\ List.length (generatorFromIngress ingress)
     = list_sum
         (map (fun rule =>
                 match rule_HTTP rule with
                 | Some paths => List.length paths
                 | None => 0%nat
                 end)
              (ing_Rules ingress)).
Proof.
  rewrite generatorFromIngress_flat_map. split.
  - reflexivity.
  - induction (ing_Rules ingress) as [|r l IH]; simpl; auto.
    rewrite length_app, IH. f_equal.
    unfold ruleEndpoints. destruct (rule_HTTP r); simpl; auto.
    apply length_map.
Qed.

Lemma len_pos_iff {A : Type} (l : list A) : (0 <? len l) = true <-> l <> [].
Proof.
  unfold len. destruct l; simpl; split; intros H; try congruence.
  - discriminate.
  - apply Z.ltb_lt. lia.
Qed.

Lemma len_zero_iff {A : Type} (l : list A) : (len l =? 0) = true <-> l = [].
Proof.
  unfold len. destruct l; simpl; split; intros H;
    try congruence; try reflexivity; try discriminate.
Qed.

Lemma StringsContain_In (items : list string) (source : string) :
  StringsContain items source = true <-> In source items.
Proof.
  unfold StringsContain. rewrite existsb_exists. split.
  - intros (x & Hin & Heq). apply String.eqb_eq in Heq. now subst.
  - intros Hin. exists source. split; [assumption | apply String.eqb_refl].
Qed.

(** The scan over the TLS entries answers [https] exactly when some
    entry lists the host or lists nothing. *)
Lemma getAppProtocolLoop_covered (tlss : list IngressTLS) (host : string) :
  (exists tls, In tls tlss /\ (In host (tls_Hosts tls) \/ tls_Hosts tls = [])) ->
  getAppProtocolLoop tlss host = "https".
Proof.
  induction tlss as [|t l IH]; intros (tls & Hin & Hc).
  - destruct Hin.
  - simpl.
    destruct ((0 <? len (tls_Hosts t)) && StringsContain (tls_Hosts t) host)
      eqn:E1; [reflexivity|].
    destruct (len (tls_Hosts t) =? 0) eqn:E2; [reflexivity|].
    apply IH. destruct Hin as [->|Hin].
    + exfalso. destruct Hc as [Hc|Hc].
      * apply andb_false_iff in E1. destruct E1 as [E1|E1].
        -- assert (tls_Hosts tls <> []) as Hne by (intros Hn; rewrite Hn in Hc; destruct Hc).
           apply len_pos_iff in Hne. congruence.
        -- apply StringsContain_In in Hc. congruence.
      * apply len_zero_iff in Hc. congruence.
    + exists tls. auto.
Qed.

Lemma getAppProtocolLoop_uncovered (tlss : list IngressTLS) (host : string) :
  ~ (exists tls, In tls tlss /\ (In host (tls_Hosts tls) \/ tls_Hosts tls = [])) ->
  getAppProtocolLoop tlss host = "http".
Proof.
  induction tlss as [|t l IH]; intros Hno; simpl; [reflexivity|].
  destruct ((0 <? len (tls_Hosts t)) && StringsContain (tls_Hosts t) host)
    eqn:E1.
  - exfalso. apply Hno. exists t. split; [now left|].
    apply andb_true_iff in E1. destruct E1 as [_ E1].
    left. now apply StringsContain_In.
  - destruct (len (tls_Hosts t) =? 0) eqn:E2.
    + exfalso. apply Hno. exists t. split; [now left|].
      right. now apply len_zero_iff.
    + apply IH. intros (tls & Hin & Hc). apply Hno. exists tls. split; auto.
      now right.
Qed.

Lemma getAppProtocol_covered (ingress : Ingress) (host : string) :
  tlsCovers ingress host -> getAppProtocol ingress host = "https".
Proof.
  intros Hc. unfold getAppProtocol.
  destruct (0 <? len (ing_TLS ingress)) eqn:E.
  - now apply getAppProtocolLoop_covered.
  - destruct Hc as (tls & Hin & _).
    assert (ing_TLS ingress <> []) as Hne by (intros Hn; rewrite Hn in Hin; destruct Hin).
    apply len_pos_iff in Hne. congruence.
Qed.

Lemma getAppProtocol_uncovered (ingress : Ingress) (host : string) :
  ~ tlsCovers ingress host -> getAppProtocol ingress host = "http".
Proof.
  intros Hc. unfold getAppProtocol.
  destruct (0 <? len (ing_TLS ingress)); [|reflexivity].
  now apply getAppProtocolLoop_uncovered.
Qed.

Lemma getAppProtocol_cases (ingress : Ingress) (host : string) :
  getAppProtocol ingress host = "https" \/ getAppProtocol ingress host = "http".
Proof.
  unfold getAppProtocol. destruct (0 <? len (ing_TLS ingress)); [|now right].
  induction (ing_TLS ingress) as [|t l IH]; simpl; [now right|].
  destruct ((0 <? len (tls_Hosts t)) && StringsContain (tls_Hosts t) host);
    [now left|].
  destruct (len (tls_Hosts t) =? 0); [now left | exact IH].
Qed.

(** Every endpoint of an Ingress comes from one of its rules and one of
    that rule's paths. *)
Lemma generatorFromIngress_In (ingress : Ingress) (ep : ServiceEndpoint) :
  In ep (generatorFromIngress ingress) ->
  exists rule paths path,
    In rule (ing_Rules ingress) /\ rule_HTTP rule = Some paths /\ In path paths
    /\ ep = ingressEndpoint ingress rule
              (getAppProtocol ingress (rule_Host rule))
              (getEndpointPort ingress (getAppProtocol ingress (rule_Host rule)))
              path.
Proof.
  rewrite generatorFromIngress_flat_map. intros Hin.
  apply in_flat_map in Hin. destruct Hin as (rule & Hr & Hin).
  unfold ruleEndpoints in Hin. destruct (rule_HTTP rule) as [paths|] eqn:E.
  - apply in_map_iff in Hin. destruct Hin as (path & <- & Hp).
    exists rule, paths, path. auto.
  - destruct Hin.
Qed.

(** Testable property 4. *)
Example tls_host_listed_and_not_listed :
  map (fun e => (Host (endpoint e), AppProtocol (endpoint e), Port (endpoint e)))
      (generatorFromIngress Samples.ingAB)
  = [("a.example.com", Some "https", 443); ("a.example.com", Some "https", 443);
     ("b.example.com", Some "http", 80)].
Proof. vm_compute. reflexivity. Qed.

(** C3: every endpoint derived from an Ingress comes from a rule of that
    Ingress, and its appProtocol is [https] if some TLS entry of the
    Ingress lists the rule's host or some TLS entry has an empty host
    list, and [http] otherwise. *)
Theorem C3_appProtocol_from_tls (ingress : Ingress) (ep : ServiceEndpoint) :
  In ep (generatorFromIngress ingress) ->
  exists rule,
    In rule (ing_Rules ingress)
    /\ Host (endpoint ep) = rule_Host rule
    /\ (tlsCovers ingress (rule_Host rule) ->
        AppProtocol (endpoint ep) = Some "https")
    /\ (~ tlsCovers ingress (rule_Host rule) ->
        AppProtocol (endpoint ep) = Some "http").
Proof.
  intros Hin. apply generatorFromIngress_In in Hin.
  destruct Hin as (rule & paths & path & Hr & _ & _ & ->).
  exists rule. simpl. repeat split; auto.
  - intros Hc. now rewrite getAppProtocol_covered.
  - intros Hc. now rewrite getAppProtocol_uncovered.
Qed.

Lemma C3_appProtocol_from_tls_witness :
  exists rule,
    In rule (ing_Rules Samples.ingAB)
    /\ "b.example.com" = rule_Host rule
    /\ (tlsCovers Samples.ingAB (rule_Host rule) -> Some "http" = Some "https")
    /\ (~ tlsCovers Samples.ingAB (rule_Host rule) -> Some "http" = Some "http").
Proof.
  apply (C3_appProtocol_from_tls Samples.ingAB
           (ingressEndpoint Samples.ingAB Samples.ruleB "http" 80 Samples.root)).
  vm_compute. right. right. left. reflexivity.
Defined.

(** *** Ports *)

Lemma int32_small (z : Z) : GoInt.fits 32 z -> GoInt.int32 z = z.
Proof.
  unfold GoInt.fits, GoInt.int32, GoInt.wrap. simpl. intros H.
  rewrite Z.mod_small by lia. lia.
Qed.

(** The transport protocol of an ingress-derived endpoint is TCP. *)
Lemma ingress_endpoint_protocol (ingress : Ingress) (ep : ServiceEndpoint) :
  In ep (generatorFromIngress ingress) -> Protocol (endpoint ep) = ProtocolTCP.
Proof.
  intros Hin. apply generatorFromIngress_In in Hin.
  destruct Hin as (rule & paths & path & _ & _ & _ & ->). reflexivity.
Qed.

(** [getEndpointPort] in terms of what [Atoi] makes of the annotation. *)
Lemma getEndpointPort_https (ingress : Ingress) :
  getEndpointPort ingress "https"
  = match Strconv.Atoi (mapIndex (Annotations (ing_ObjectMeta ingress))
                                 AnnoIngressControllerHTTPSPort) with
    | (port, None) => if 0 <? port then port else 443
    | (_, Some _) => 443
    end.
Proof.
  unfold getEndpointPort. simpl.
  destruct (Strconv.Atoi _) as [port [e|]]; [now rewrite andb_false_r|].
  now rewrite andb_true_r.
Qed.

Lemma getEndpointPort_http (ingress : Ingress) :
  getEndpointPort ingress "http"
  = match Strconv.Atoi (mapIndex (Annotations (ing_ObjectMeta ingress))
                                 AnnoIngressControllerHTTPPort) with
    | (port, None) => if 0 <? port then port else 80
    | (_, Some _) => 80
    end.
Proof.
  unfold getEndpointPort. simpl.
  destruct (Strconv.Atoi _) as [port [e|]]; [now rewrite andb_false_r|].
  now rewrite andb_true_r.
Qed.

(** As long as the resolved port fits [int32], the endpoint carries it
    unchanged. *)
Lemma ingress_endpoint_port_in_range (ingress : Ingress) (ep : ServiceEndpoint) :
  In ep (generatorFromIngress ingress) ->
  exists appProtocol,
    AppProtocol (endpoint ep) = Some appProtocol
    /\ (appProtocol = "https" \/ appProtocol = "http")
    /\ (GoInt.fits 32 (getEndpointPort ingress appProtocol) ->
        Port (endpoint ep) = getEndpointPort ingress appProtocol).
Proof.
  intros Hin. apply generatorFromIngress_In in Hin.
  destruct Hin as (rule & paths & path & _ & _ & _ & ->).
  exists (getAppProtocol ingress (rule_Host rule)). simpl. repeat split.
  - apply getAppProtocol_cases.
  - apply int32_small.
Qed.

(** Testable property 5. *)
Example https_port_annotation_8443 :
  map (fun e => Port (endpoint e)) (generatorFromIngress Samples.ing8443)
  = [8443; 8443].
Proof. vm_compute. reflexivity. Qed.

(** C4 does not hold of the code for every annotation value: the
    annotation ["4294967296"] parses as a positive integer, and
    [getEndpointPort] returns it, but the conversion to the endpoint's
    [int32] port leaves 0 on the https endpoints, neither the
    annotation's value nor the default 443.  (The http endpoint of the
    same Ingress has the default 80, and all are TCP.) *)
Theorem C4_wide_port_annotation_wraps :
  Strconv.Atoi (mapIndex (Annotations (ing_ObjectMeta Samples.ingWidePort))
                         AnnoIngressControllerHTTPSPort)
  = (4294967296, None)
  /\ getEndpointPort Samples.ingWidePort "https" = 4294967296
  /\ map (fun e => (Protocol (endpoint e), AppProtocol (endpoint e),
                    Host (endpoint e), Port (endpoint e)))
         (generatorFromIngress Samples.ingWidePort)
     = [("TCP", Some "http", "b.example.com", 80);
        ("TCP", Some "https", "a.example.com", 0);
        ("TCP", Some "https", "a.example.com", 0)].
Proof. vm_compute. repeat split. Qed.

(** ** The loop over applied resources *)

Section ServiceEndpointLoop.

Variable getApplication : string -> string -> string -> GetResult Application.
Variable getIngress :
  GroupVersionKind -> string -> string -> string -> GetResult Ingress.
Variable getService :
  GroupVersionKind -> string -> string -> string -> GetResult Service.
Variable CollectServices : string -> string -> string -> list Service * error.
Variable CollectIngress : string -> string -> string -> list Ingress * error.
Variable isResourceInTargetCluster :
  FilterOption -> ClusterObjectReference -> bool.

Local Abbreviation step :=
  (resourceStep getIngress getService CollectServices CollectIngress
                isResourceInTargetCluster).
Local Abbreviation collect :=
  (collectServiceEndpoints getIngress getService CollectServices
                           CollectIngress isResourceInTargetCluster).

Lemma collect_app (filter : FilterOption)
    (pre post : list ClusterObjectReference) :
  collect filter (pre ++ post)
  = fold_left (step filter) post (collect filter pre).
Proof. unfold collectServiceEndpoints. apply fold_left_app. Qed.

Lemma unsupported_ingress_step (filter : FilterOption)
    (resource : ClusterObjectReference) (acc : list ServiceEndpoint) :
  cor_Kind resource = "Ingress" ->
  supportedIngressVersion resource = false ->
  step filter acc resource = acc.
Proof.
  intros Hk Hv. unfold resourceStep.
  destruct (isResourceInTargetCluster filter resource); simpl; [|reflexivity].
  now rewrite Hk, Hv.
Qed.

Lemma unsupported_version (resource : ClusterObjectReference) :
  ~ (cor_Group resource = networkGroupName
     /\ (cor_Version resource = "v1beta1" \/ cor_Version resource = "v1")) ->
  supportedIngressVersion resource = false.
Proof.
  intros Hn. unfold supportedIngressVersion. simpl.
  destruct (String.eqb_spec (cor_Group resource) networkGroupName) as [Eg|Eg];
    simpl; [|reflexivity].
  destruct (String.eqb_spec (cor_Version resource) "v1beta1") as [E1|E1];
    [exfalso; auto|].
  destruct (String.eqb_spec (cor_Version resource) "v1") as [E2|E2];
    [exfalso; auto|].
  reflexivity.
Qed.

(** C6: an applied resource of kind Ingress whose group is not the
    network group, or whose version is neither v1beta1 nor v1, adds no
    endpoint; the loop goes on with the resources after it, so the
    list is what the other resources produce; and the handler ends by
    filling that list, not by returning an error. *)
Theorem C6_unsupported_ingress_is_skipped
    (opt : QueryOption) (app : Application)
    (resource : ClusterObjectReference)
    (pre post : list ClusterObjectReference) :
  cor_Kind resource = "Ingress" ->
  ~ (cor_Group resource = networkGroupName
     /\ (cor_Version resource = "v1beta1" \/ cor_Version resource = "v1")) ->
  getApplication (opt_Name opt) (opt_Namespace opt) "" = Found app ->
  app_AppliedResources app = pre ++ resource :: post ->
  (forall acc, step (opt_Filter opt) acc resource = acc)
  /\ collect (opt_Filter opt) (pre ++ resource :: post)
     = collect (opt_Filter opt) (pre ++ post)
  /\ GeneratorServiceEndpoints getApplication getIngress getService
       CollectServices CollectIngress isResourceInTargetCluster (Ok opt)
     = Fill (collect (opt_Filter opt) (pre ++ post)) "list".
Proof.
  intros Hk Hv Happ Hres.
  pose proof (unsupported_version resource Hv) as Hs.
  assert (Hstep : forall acc, step (opt_Filter opt) acc resource = acc)
    by (intros; now apply unsupported_ingress_step).
  assert (Hcol : collect (opt_Filter opt) (pre ++ resource :: post)
                 = collect (opt_Filter opt) (pre ++ post)).
  { rewrite !collect_app. simpl. now rewrite Hstep. }
  repeat split; auto.
  unfold GeneratorServiceEndpoints. rewrite Happ. simpl.
  rewrite Hres. now rewrite Hcol.
Qed.

End ServiceEndpointLoop.

Lemma C6_unsupported_ingress_is_skipped_witness :
  GeneratorServiceEndpoints Samples.storeApplication Samples.storeIngress
    Samples.storeService Samples.noServices Samples.noIngresses
    Samples.everywhere (Ok Samples.appOption)
  = Fill (collectServiceEndpoints Samples.storeIngress Samples.storeService
            Samples.noServices Samples.noIngresses Samples.everywhere
            Samples.noFilter ([] ++ [Samples.frontService]))
         "list".
Proof.
  apply (C6_unsupported_ingress_is_skipped
           Samples.storeApplication Samples.storeIngress Samples.storeService
           Samples.noServices Samples.noIngresses Samples.everywhere
           Samples.appOption
           {| app_AppliedResources := [Samples.extIngress; Samples.frontService] |}
           Samples.extIngress [] [Samples.frontService]).
  - reflexivity.
  - intros [H _]. vm_compute in H. discriminate.
  - reflexivity.
  - reflexivity.
Defined.

(** ** Pod collection *)

Example helmRelease_v2_is_generic :
  selectPodCollector (u_GVK Samples.helmReleaseV2)
  = UseNewPodCollector (u_GVK Samples.helmReleaseV2).
Proof. reflexivity. Qed.

Lemma GroupVersionKind_eqb_eq (a b : GroupVersionKind) :
  GroupVersionKind_eqb a b = true <-> a = b.
Proof.
  unfold GroupVersionKind_eqb. destruct a as [g v k], b as [g' v' k']. simpl.
  rewrite !andb_true_iff, !String.eqb_eq. split.
  - intros [[-> ->] ->]. reflexivity.
  - intros H. injection H as -> -> ->. auto.
Qed.

(** C9: the object's group/version/kind decides the collector: exactly
    helm.toolkit.fluxcd.io / v2beta1 / HelmRelease selects the
    helm-release pod collector; every other group/version/kind, a
    HelmRelease of another group or version included, selects the
    collector that [NewPodCollector] makes for it; and [CollectPods]
    runs the selected collector on the object and fills its pods. *)
Theorem C9_pod_collector_dispatch
    (helmReleasePodCollector : PodCollector)
    (NewPodCollector : GroupVersionKind -> PodCollector)
    (Value : Type) (val : Value) (cluster : string)
    (unmarshalObj : Value -> result Unstructured) (obj : Unstructured) :
  let helm := {| Group := "helm.toolkit.fluxcd.io"; Version := "v2beta1";
                 gvk_Kind := "HelmRelease" |} in
  unmarshalObj val = Ok obj ->
  (u_GVK obj = helm ->
   selectPodCollector (u_GVK obj) = UseHelmReleasePodCollector
   /\ CollectPods helmReleasePodCollector NewPodCollector Value
        (Ok val) (Ok cluster) unmarshalObj
      = match helmReleasePodCollector obj cluster with
        | (_, Some e) => FillErr e
        | (pods, None) => Fill pods "list"
        end)
  /\ (u_GVK obj <> helm ->
      selectPodCollector (u_GVK obj) = UseNewPodCollector (u_GVK obj)
      /\ CollectPods helmReleasePodCollector NewPodCollector Value
           (Ok val) (Ok cluster) unmarshalObj
         = match NewPodCollector (u_GVK obj) obj cluster with
           | (_, Some e) => FillErr e
           | (pods, None) => Fill pods "list"
           end).
Proof.
  intros helm Hobj.
  assert (Hh : WithKind fluxcdGroupVersion HelmReleaseKind = helm) by reflexivity.
  split; intros Hg.
  - assert (Hs : selectPodCollector (u_GVK obj) = UseHelmReleasePodCollector).
    { unfold selectPodCollector. rewrite Hh.
      now rewrite (proj2 (GroupVersionKind_eqb_eq _ _) Hg). }
    split; [exact Hs|].
    unfold CollectPods. rewrite Hobj, Hs. reflexivity.
  - assert (Hs : selectPodCollector (u_GVK obj) = UseNewPodCollector (u_GVK obj)).
    { unfold selectPodCollector. rewrite Hh.
      destruct (GroupVersionKind_eqb (u_GVK obj) helm) eqn:E; [|reflexivity].
      apply GroupVersionKind_eqb_eq in E. contradiction. }
    split; [exact Hs|].
    unfold CollectPods. rewrite Hobj, Hs. reflexivity.
Qed.

Lemma C9_pod_collector_dispatch_witness :
  CollectPods Samples.helmPods Samples.genericPods unit
    (Ok tt) (Ok "edge") (fun _ => Ok Samples.helmRelease)
  = Fill [Samples.podOf "redis-0"] "list"
  /\ CollectPods Samples.helmPods Samples.genericPods unit
       (Ok tt) (Ok "edge") (fun _ => Ok Samples.helmReleaseV2)
     = Fill [Samples.podOf "redis"] "list".
Proof.
  split.
  - apply (proj1 (C9_pod_collector_dispatch Samples.helmPods Samples.genericPods
                    unit tt "edge" (fun _ => Ok Samples.helmRelease)
                    Samples.helmRelease eq_refl)).
    reflexivity.
  - apply (proj2 (C9_pod_collector_dispatch Samples.helmPods Samples.genericPods
                    unit tt "edge" (fun _ => Ok Samples.helmReleaseV2)
                    Samples.helmReleaseV2 eq_refl)).
    intros H. vm_compute in H. discriminate.
Defined.

(** ** Log collection *)

Lemma int64_small (z : Z) : GoInt.fits 64 z -> GoInt.int64 z = z.
Proof.
  unfold GoInt.fits, GoInt.int64, GoInt.wrap. simpl. intros H.
  rewrite Z.mod_small by lia. lia.
Qed.

(** The three sources of [fromDate], in their order of precedence. *)
Lemma resolveFromDate_sinceTime (opts : PodLogOptions) (now : Time) (pod : Pod)
    (t : Time) :
  SinceTime opts = Some t -> resolveFromDate opts now pod = t.
Proof. intros H. unfold resolveFromDate. now rewrite H. Qed.

Lemma resolveFromDate_creation (opts : PodLogOptions) (now : Time) (pod : Pod) :
  SinceTime opts = None -> SinceSeconds opts = None ->
  resolveFromDate opts now pod = CreationTimestamp pod.
Proof. intros H1 H2. unfold resolveFromDate. now rewrite H1, H2. Qed.

(** While the number of seconds, taken as nanoseconds, fits [int64],
    the window starts that many seconds before [now]. *)
Lemma resolveFromDate_sinceSeconds (opts : PodLogOptions) (now : Time) (pod : Pod)
    (s : Z) :
  SinceTime opts = None -> SinceSeconds opts = Some s ->
  - 2 ^ 63 < s * Second < 2 ^ 63 ->
  resolveFromDate opts now pod = now - s * Second.
Proof.
  intros H1 H2 Hr. unfold resolveFromDate. rewrite H1, H2.
  unfold Time_Add, GoInt.mul64, GoInt.neg64, Second in *.
  rewrite (int64_small 1000000000) by (unfold GoInt.fits; simpl; lia).
  rewrite (int64_small (- s)) by (unfold GoInt.fits; simpl; lia).
  rewrite int64_small by (unfold GoInt.fits; simpl; lia).
  lia.
Qed.

(** Testable property 7. *)
Example since_sixty_seconds :
  resolveFromDate (Samples.optsSince (Some 60) None) Samples.clock Samples.pod
  = Samples.clock - 60 * Second.
Proof. reflexivity. Qed.

Example since_unset_is_creation :
  resolveFromDate (Samples.optsSince None None) Samples.clock Samples.pod
  = Samples.created.
Proof. reflexivity. Qed.

(** C7 does not hold of the code for every since-seconds value: with
    no since-time and since-seconds 9223372037 (a valid [int64]), the
    product with the nanoseconds of a second overflows [int64], and the
    window that the handler fills starts 9223372036709551616 ns after
    [toDate] instead of 9223372037 s before it.  ([toDate] is the
    clock reading, as the claim says.) *)
Theorem C7_since_seconds_overflow :
  let opts := Samples.optsSince (Some 9223372037) None in
  GoInt.mul64 (GoInt.neg64 9223372037) (GoInt.int64 Second) = 9223372036709551616
  /\ CollectLogsInPod unit (Ok "edge") (Ok "default") (Ok "front-0") (Ok tt)
       (fun _ => Ok opts) None Samples.podStore Samples.streamTwoLines
       Samples.clock
     = Fill {| logs := "onetwo";
               fromDate := Samples.clock + 9223372036709551616;
               toDate := Samples.clock;
               out_err := None |} "outputs"
  /\ Samples.clock + 9223372036709551616 <> Samples.clock - 9223372037 * Second
  /\ Samples.clock < Samples.clock + 9223372036709551616.
Proof. vm_compute. repeat split; discriminate. Qed.

(** C8, as stated, fails: when opening the stream fails with the
    recognised condition the handler does fill a result with empty
    text, but that result carries the error's message in its [err]
    field. *)
Lemma C8_result_carries_the_error :
  isTerminatedContainerNotFound (Some Samples.notFoundMsg) = true
  /\ exists o,
       CollectLogsInPod unit (Ok "edge") (Ok "default") (Ok "front-0") (Ok tt)
         (fun _ => Ok (Samples.optsSince None None)) None Samples.podStore
         Samples.streamGone Samples.clock
       = Fill o "outputs"
       /\ logs o = ""
       /\ out_err o = Some Samples.notFoundMsg
       /\ out_err o <> None.
Proof.
  split; [vm_compute; reflexivity|].
  eexists. split; [vm_compute; reflexivity|].
  repeat split. discriminate.
Qed.

(** C8, amended: when opening the log stream fails with the recognised
    "previous terminated container ... not found" condition, the handler
    does not return an error: it fills a result whose text is empty,
    whose window is resolved as usual, and whose [err] field carries the
    message of that error. *)
Theorem C8_terminated_container_not_found
    (Value : Type) (val : Value) (cluster namespace pod : string)
    (unmarshalOptions : Value -> result PodLogOptions) (opts : PodLogOptions)
    (podsGet : string -> string -> string -> result Pod) (podInst : Pod)
    (Stream : string -> string -> string -> PodLogOptions -> result LogStream)
    (Now : Time) (e : string) :
  unmarshalOptions val = Ok opts ->
  podsGet cluster namespace pod = Ok podInst ->
  Stream cluster namespace pod opts = Err e ->
  isTerminatedContainerNotFound (Some e) = true ->
  CollectLogsInPod Value (Ok cluster) (Ok namespace) (Ok pod) (Ok val)
    unmarshalOptions None podsGet Stream Now
  = Fill {| logs := "";
            fromDate := resolveFromDate opts Now podInst;
            toDate := Now;
            out_err := Some e |} "outputs".
Proof.
  intros Hu Hp Hs Hm. unfold CollectLogsInPod.
  rewrite Hu, Hp, Hs, Hm. reflexivity.
Qed.

Lemma C8_terminated_container_not_found_witness :
  CollectLogsInPod unit (Ok "edge") (Ok "default") (Ok "front-0") (Ok tt)
    (fun _ => Ok (Samples.optsSince None None)) None Samples.podStore
    Samples.streamGone Samples.clock
  = Fill {| logs := "";
            fromDate := resolveFromDate (Samples.optsSince None None)
                                        Samples.clock Samples.pod;
            toDate := Samples.clock;
            out_err := Some Samples.notFoundMsg |} "outputs".
Proof.
  apply (C8_terminated_container_not_found unit tt "edge" "default" "front-0"
           (fun _ => Ok (Samples.optsSince None None))
           (Samples.optsSince None None) Samples.podStore Samples.pod
           Samples.streamGone Samples.clock Samples.notFoundMsg).
  - reflexivity.
  - reflexivity.
  - reflexivity.
  - vm_compute. reflexivity.
Defined.

(** ** URL rendering *)

Example render_https_default_port :
  ServiceEndpoint_String asciiToLower
    (Samples.epOf "TCP" (Some "https") "a.example.com" 443 "/")
  = "https://a.example.com".
Proof. reflexivity. Qed.

Example render_transport_scheme :
  ServiceEndpoint_String asciiToLower
    (Samples.epOf "TCP" None "10.0.0.7" 80 "/api")
  = "tcp://10.0.0.7:80/api".
Proof. reflexivity. Qed.

Example render_http_other_port :
  ServiceEndpoint_String asciiToLower
    (Samples.epOf "TCP" (Some "http") "b.example.com" 8080 "")
  = "http://b.example.com:8080".
Proof. reflexivity. Qed.

Lemma defaultPort_iff (protocol : string) (port : Z) :
  defaultPort protocol port = true
  <-> (protocol = "https" /\ port = 443) \/ (protocol = "http" /\ port = 80).
Proof.
  unfold defaultPort.
  rewrite orb_true_iff, !andb_true_iff, !String.eqb_eq, !Z.eqb_eq. reflexivity.
Qed.

(** C10: the rendering of a ServiceEndpoint is scheme, [://], host, an
    optional [:port], and path, where the scheme is the appProtocol when
    it is set and the lower-cased transport protocol otherwise, a path
    of exactly [/] is rendered empty, and the port is left out exactly
    when (scheme, port) is (https, 443) or (http, 80). *)
Theorem C10_string_rendering (ToLower : string -> string) (s : ServiceEndpoint) :
  let scheme := match AppProtocol (endpoint s) with
                | Some appProtocol => appProtocol
                | None => ToLower (Protocol (endpoint s))
                end in
  let path := if String.eqb (Path (endpoint s)) "/" then ""
              else Path (endpoint s) in
  let port := Port (endpoint s) in
  ((scheme = "https" /\ port = 443) \/ (scheme = "http" /\ port = 80) ->
   ServiceEndpoint_String ToLower s
   = scheme +:+ "://" +:+ Host (endpoint s) +:+ path)
  /\ (~ ((scheme = "https" /\ port = 443) \/ (scheme = "http" /\ port = 80)) ->
      ServiceEndpoint_String ToLower s
      = scheme +:+ "://" +:+ Host (endpoint s) +:+ ":"
          +:+ Strconv.formatInt port +:+ path).
Proof.
  intros scheme path port.
  assert (Hs : urlScheme ToLower s = scheme) by reflexivity.
  assert (Hp : urlPath s = path) by reflexivity.
  unfold ServiceEndpoint_String. rewrite Hs, Hp. fold port.
  split; intros H.
  - apply defaultPort_iff in H. now rewrite H.
  - destruct (defaultPort scheme port) eqn:E; [|reflexivity].
    apply defaultPort_iff in E. contradiction.
Qed.

Lemma C10_string_rendering_witness :
  ServiceEndpoint_String asciiToLower
    (Samples.epOf "TCP" (Some "https") "a.example.com" 443 "/")
  = "https" +:+ "://" +:+ "a.example.com" +:+ ""
  /\ ServiceEndpoint_String asciiToLower
       (Samples.epOf "UDP" None "10.0.0.7" 53 "/")
     = "udp" +:+ "://" +:+ "10.0.0.7" +:+ ":" +:+ "53" +:+ "".
Proof.
  split.
  - apply (proj1 (C10_string_rendering asciiToLower
                    (Samples.epOf "TCP" (Some "https") "a.example.com" 443 "/"))).
    left. split; reflexivity.
  - apply (proj2 (C10_string_rendering asciiToLower
                    (Samples.epOf "UDP" None "10.0.0.7" 53 "/"))).
    intros [[H _]|[H _]]; vm_compute in H; discriminate.
Defined.

(** * Further properties of the endpoint derivation *)

(** The three outcomes of the [switch] on the service type. *)
Lemma generatorFromService_cases (service : Service) :
  generatorFromService service
  = if String.eqb (svc_Type service) ServiceTypeLoadBalancer then
      flat_map (fun port => flat_map (lbPairEndpoints service port)
                                     (svc_LoadBalancerIngress service))
               (svc_Ports service)
    else if String.eqb (svc_Type service) ServiceTypeNodePort then
      map (nodePortEndpoint service) (svc_Ports service)
    else [].
Proof.
  destruct (String.eqb_spec (svc_Type service) ServiceTypeLoadBalancer) as [E|E].
  - now apply generatorFromService_LoadBalancer.
  - unfold generatorFromService.
    rewrite (proj2 (String.eqb_neq _ _) E).
    destruct (String.eqb (svc_Type service) ServiceTypeNodePort).
    + unfold nodePortStep. now rewrite fold_left_append_one.
    + now destruct (_ || _).
Qed.

Lemma lbPairEndpoints_In service port ingress ep :
  In ep (lbPairEndpoints service port ingress) ->
  (ep = lbEndpoint service port (lb_Hostname ingress) /\ lb_Hostname ingress <> "")
  \/ (ep = lbEndpoint service port (lb_IP ingress) /\ lb_IP ingress <> "").
Proof.
  unfold lbPairEndpoints. intros Hin. apply in_app_or in Hin.
  destruct Hin as [Hin|Hin]; [left|right].
  - destruct (String.eqb_spec (lb_Hostname ingress) ""); [destruct Hin|].
    destruct Hin as [<-|[]]. auto.
  - destruct (String.eqb_spec (lb_IP ingress) ""); [destruct Hin|].
    destruct Hin as [<-|[]]. auto.
Qed.

(** Every endpoint of a Service refers back to that Service, has no
    appProtocol and no path, and takes its protocol from one of the
    service's ports; its host is non-empty and its port the service port
    for a LoadBalancer, and its host is empty and its port the node port
    for a NodePort service. *)
Theorem service_endpoint_origin (service : Service) (ep : ServiceEndpoint) :
  In ep (generatorFromService service) ->
  Ref ep = serviceRef service
  /\ AppProtocol (endpoint ep) = None
  /\ Path (endpoint ep) = ""
  /\ exists port,
       In port (svc_Ports service)
       /\ Protocol (endpoint ep) = sp_Protocol port
       /\ ((svc_Type service = ServiceTypeLoadBalancer
            /\ Host (endpoint ep) <> ""
            /\ Port (endpoint ep) = sp_Port port)
           \/ (svc_Type service = ServiceTypeNodePort
               /\ Host (endpoint ep) = ""
               /\ Port (endpoint ep) = sp_NodePort port)).
Proof.
  rewrite generatorFromService_cases.
  destruct (String.eqb_spec (svc_Type service) ServiceTypeLoadBalancer) as [E|E].
  - intros Hin. apply in_flat_map in Hin. destruct Hin as (port & Hp & Hin).
    apply in_flat_map in Hin. destruct Hin as (ingress & Hi & Hin).
    apply lbPairEndpoints_In in Hin.
    destruct Hin as [[-> Hne]|[-> Hne]]; simpl; repeat split;
      exists port; repeat split; auto.
  - destruct (String.eqb_spec (svc_Type service) ServiceTypeNodePort) as [E'|E'].
    + intros Hin. apply in_map_iff in Hin. destruct Hin as (port & <- & Hp).
      simpl. repeat split. exists port. repeat split; auto.
    + intros [].
Qed.

Lemma service_endpoint_origin_witness :
  Ref (nodePortEndpoint Samples.nodePortSvc Samples.dns)
  = serviceRef Samples.nodePortSvc
  /\ AppProtocol (endpoint (nodePortEndpoint Samples.nodePortSvc Samples.dns)) = None
  /\ Path (endpoint (nodePortEndpoint Samples.nodePortSvc Samples.dns)) = ""
  /\ exists port,
       In port (svc_Ports Samples.nodePortSvc)
       /\ Protocol (endpoint (nodePortEndpoint Samples.nodePortSvc Samples.dns))
          = sp_Protocol port
       /\ ((svc_Type Samples.nodePortSvc = ServiceTypeLoadBalancer
            /\ Host (endpoint (nodePortEndpoint Samples.nodePortSvc Samples.dns)) <> ""
            /\ Port (endpoint (nodePortEndpoint Samples.nodePortSvc Samples.dns))
               = sp_Port port)
           \/ (svc_Type Samples.nodePortSvc = ServiceTypeNodePort
               /\ Host (endpoint (nodePortEndpoint Samples.nodePortSvc Samples.dns)) = ""
               /\ Port (endpoint (nodePortEndpoint Samples.nodePortSvc Samples.dns))
                  = sp_NodePort port)).
Proof.
  apply (service_endpoint_origin Samples.nodePortSvc
           (nodePortEndpoint Samples.nodePortSvc Samples.dns)).
  vm_compute. right. left. reflexivity.
Defined.

(** A Service that is not of type NodePort yields no endpoint unless it
    is a LoadBalancer one of whose ingress entries has a hostname or an
    IP: a load balancer that has no ingress entry yet, entries with
    neither field, and any other type (the empty type included) give the
    empty list. *)
Theorem service_without_external_address (service : Service) :
  svc_Type service <> ServiceTypeNodePort ->
  (svc_Type service = ServiceTypeLoadBalancer ->
   forall ingress, In ingress (svc_LoadBalancerIngress service) ->
                   lb_Hostname ingress = "" /\ lb_IP ingress = "") ->
  generatorFromService service = [].
Proof.
  intros Hnp Hlb. rewrite generatorFromService_cases.
  destruct (String.eqb_spec (svc_Type service) ServiceTypeLoadBalancer) as [E|E].
  - specialize (Hlb E).
    induction (svc_Ports service) as [|p ps IH]; simpl; [reflexivity|].
    rewrite IH, app_nil_r. clear IH.
    induction (svc_LoadBalancerIngress service) as [|i l IH]; simpl; [reflexivity|].
    rewrite IH by (intros; apply Hlb; now right).
    destruct (Hlb i (or_introl eq_refl)) as [Hh Hi].
    unfold lbPairEndpoints. now rewrite Hh, Hi.
  - now rewrite (proj2 (String.eqb_neq _ _) Hnp).
Qed.

Lemma service_without_external_address_witness :
  generatorFromService
    (Samples.service ServiceTypeLoadBalancer [Samples.web; Samples.dns] []) = []
  /\ generatorFromService (Samples.service "" [Samples.web] [Samples.byIP]) = [].
Proof.
  split.
  - apply (service_without_external_address
             (Samples.service ServiceTypeLoadBalancer [Samples.web; Samples.dns] [])).
    + intros H. vm_compute in H. discriminate.
    + intros _ ingress [].
  - apply (service_without_external_address
             (Samples.service "" [Samples.web] [Samples.byIP])).
    + intros H. vm_compute in H. discriminate.
    + intros H. vm_compute in H. discriminate.
Defined.

Lemma lbPairEndpoints_length service port (entries : list LoadBalancerIngress) :
  List.length (flat_map (lbPairEndpoints service port) entries)
  = list_sum (map addressCount entries).
Proof.
  induction entries as [|i l IH]; simpl; [reflexivity|].
  rewrite length_app, IH. f_equal.
  unfold lbPairEndpoints, addressCount.
  destruct (String.eqb (lb_Hostname i) ""), (String.eqb (lb_IP i) "");
    reflexivity.
Qed.

Lemma addressCount_sum_le (entries : list LoadBalancerIngress) :
  (list_sum (map addressCount entries) <= 2 * List.length entries)%nat.
Proof.
  induction entries as [|i l IH]; [simpl; lia|].
  cbn [map list_sum List.length fold_right].
  assert (addressCount i <= 2)%nat
    by (unfold addressCount;
        destruct (String.eqb (lb_Hostname i) ""), (String.eqb (lb_IP i) "");
        simpl; lia).
  change (list_sum (map addressCount l))
    with (fold_right Nat.add 0%nat (map addressCount l)) in IH.
  lia.
Qed.

(** A LoadBalancer Service yields as many endpoints as it has ports
    times the addresses (non-empty hostnames and non-empty IPs) of its
    ingress entries; so at most two per (port, entry) pair. *)
Theorem loadBalancer_endpoint_count (service : Service) :
  svc_Type service = ServiceTypeLoadBalancer ->
  List.length (generatorFromService service)
  = (List.length (svc_Ports service)
     * list_sum (map addressCount (svc_LoadBalancerIngress service)))%nat
  /\ (List.length (generatorFromService service)
      <= 2 * (List.length (svc_Ports service)
              * List.length (svc_LoadBalancerIngress service)))%nat.
Proof.
  intros Ht. rewrite generatorFromService_LoadBalancer by assumption.
  pose proof (addressCount_sum_le (svc_LoadBalancerIngress service)) as Hle.
  assert (Hlen : List.length
                   (flat_map (fun port => flat_map (lbPairEndpoints service port)
                                            (svc_LoadBalancerIngress service))
                             (svc_Ports service))
                 = (List.length (svc_Ports service)
                    * list_sum (map addressCount (svc_LoadBalancerIngress service)))%nat).
  { clear Hle. induction (svc_Ports service) as [|p ps IH]; simpl; [reflexivity|].
    rewrite length_app, IH, lbPairEndpoints_length. reflexivity. }
  split; [exact Hlen|]. rewrite Hlen. nia.
Qed.

Lemma loadBalancer_endpoint_count_witness :
  List.length (generatorFromService Samples.lbBoth)
  = (List.length (svc_Ports Samples.lbBoth)
     * list_sum (map addressCount (svc_LoadBalancerIngress Samples.lbBoth)))%nat
  /\ (List.length (generatorFromService Samples.lbBoth)
      <= 2 * (List.length (svc_Ports Samples.lbBoth)
              * List.length (svc_LoadBalancerIngress Samples.lbBoth)))%nat.
Proof.
  apply (loadBalancer_endpoint_count Samples.lbBoth). reflexivity.
Defined.

(** ** Ingress: TLS coverage *)

Lemma getAppProtocolLoop_https_covered (tlss : list IngressTLS) (host : string) :
  getAppProtocolLoop tlss host = "https" ->
  exists tls, In tls tlss /\ (In host (tls_Hosts tls) \/ tls_Hosts tls = []).
Proof.
  induction tlss as [|t l IH]; simpl; [discriminate|].
  destruct ((0 <? len (tls_Hosts t)) && StringsContain (tls_Hosts t) host)
    eqn:E1.
  - intros _. exists t. split; [now left|]. left.
    apply andb_true_iff in E1. now apply StringsContain_In.
  - destruct (len (tls_Hosts t) =? 0) eqn:E2.
    + intros _. exists t. split; [now left|]. right. now apply len_zero_iff.
    + intros H. destruct (IH H) as (tls & Hin & Hc). exists tls. auto.
Qed.

Lemma getAppProtocol_https_iff (ingress : Ingress) (host : string) :
  getAppProtocol ingress host = "https" <-> tlsCovers ingress host.
Proof.
  split; [|apply getAppProtocol_covered].
  unfold getAppProtocol, tlsCovers.
  destruct (0 <? len (ing_TLS ingress)); [|discriminate].
  apply getAppProtocolLoop_https_covered.
Qed.

(** An Ingress without TLS entries has only [http] endpoints, and an
    Ingress with a TLS entry that lists no host has only [https]
    endpoints, whatever the hosts of its rules and its other TLS
    entries. *)
Theorem ingress_tls_extremes (ingress : Ingress) (ep : ServiceEndpoint) :
  In ep (generatorFromIngress ingress) ->
  (ing_TLS ingress = [] -> AppProtocol (endpoint ep) = Some "http")
  /\ ((exists tls, In tls (ing_TLS ingress) /\ tls_Hosts tls = []) ->
      AppProtocol (endpoint ep) = Some "https").
Proof.
  intros Hin. apply generatorFromIngress_In in Hin.
  destruct Hin as (rule & paths & path & _ & _ & _ & ->). simpl. split.
  - intros Hnil. rewrite getAppProtocol_uncovered; [reflexivity|].
    intros (tls & Hin & _). rewrite Hnil in Hin. destruct Hin.
  - intros (tls & Hin & Hnil). rewrite getAppProtocol_covered; [reflexivity|].
    exists tls. auto.
Qed.

Lemma ingress_tls_extremes_witness :
  AppProtocol (endpoint (ingressEndpoint Samples.ingNoHost Samples.ruleNoHost
                                         "http" 80 Samples.root))
  = Some "http"
  /\ AppProtocol (endpoint (ingressEndpoint MoreSamples.ingBadPort Samples.ruleA
                                            "https" 443 Samples.root))
     = Some "https".
Proof.
  split.
  - apply (proj1 (ingress_tls_extremes Samples.ingNoHost
                    (ingressEndpoint Samples.ingNoHost Samples.ruleNoHost
                                     "http" 80 Samples.root)
                    (or_introl eq_refl))).
    reflexivity.
  - apply (proj2 (ingress_tls_extremes MoreSamples.ingBadPort
                    (ingressEndpoint MoreSamples.ingBadPort Samples.ruleA
                                     "https" 443 Samples.root)
                    (or_introl eq_refl))).
    eexists. split; [left; reflexivity | reflexivity].
Defined.

(** The appProtocol chosen for a host does not depend on the order of
    the TLS entries, nor on how often an entry is repeated: two
    Ingresses whose TLS lists have the same entries agree. *)
Theorem appProtocol_ignores_tls_order (a b : Ingress) (host : string) :
  (forall tls, In tls (ing_TLS a) <-> In tls (ing_TLS b)) ->
  getAppProtocol a host = getAppProtocol b host.
Proof.
  intros Hsame.
  assert (Hc : tlsCovers a host <-> tlsCovers b host).
  { unfold tlsCovers. split; intros (tls & Hin & Hc); exists tls;
      (split; [now apply Hsame | exact Hc]). }
  destruct (getAppProtocol_cases a host) as [Ha|Ha];
    destruct (getAppProtocol_cases b host) as [Hb|Hb]; try congruence.
  - apply getAppProtocol_https_iff, Hc, getAppProtocol_https_iff in Ha. congruence.
  - apply getAppProtocol_https_iff, Hc, getAppProtocol_https_iff in Hb. congruence.
Qed.

Lemma appProtocol_ignores_tls_order_witness :
  getAppProtocol
    (Samples.ingress ∅ [Samples.tlsA; MoreSamples.tlsB] [Samples.ruleA]) "b.example.com"
  = getAppProtocol
      (Samples.ingress ∅ [MoreSamples.tlsB; Samples.tlsA; MoreSamples.tlsB] [Samples.ruleB])
      "b.example.com".
Proof.
  apply (appProtocol_ignores_tls_order
           (Samples.ingress ∅ [Samples.tlsA; MoreSamples.tlsB] [Samples.ruleA])
           (Samples.ingress ∅ [MoreSamples.tlsB; Samples.tlsA; MoreSamples.tlsB]
                            [Samples.ruleB])
           "b.example.com").
  intros tls. simpl. tauto.
Defined.

(** ** Ingress: ports *)

(** When the port annotation of the endpoint's appProtocol is missing,
    or [Atoi] rejects its value, or the value is zero or negative, the
    endpoint has the default port: 443 for https, 80 for http. *)
Theorem ingress_port_defaults (ingress : Ingress) (ep : ServiceEndpoint) :
  In ep (generatorFromIngress ingress) ->
  (AppProtocol (endpoint ep) = Some "https" ->
   Annotations (ing_ObjectMeta ingress) !! AnnoIngressControllerHTTPSPort = None
   \/ (exists v, Annotations (ing_ObjectMeta ingress)
                 !! AnnoIngressControllerHTTPSPort = Some v
                 /\ (snd (Strconv.Atoi v) <> None \/ fst (Strconv.Atoi v) <= 0)) ->
   Port (endpoint ep) = 443)
  /\ (AppProtocol (endpoint ep) = Some "http" ->
      Annotations (ing_ObjectMeta ingress) !! AnnoIngressControllerHTTPPort = None
      \/ (exists v, Annotations (ing_ObjectMeta ingress)
                    !! AnnoIngressControllerHTTPPort = Some v
                    /\ (snd (Strconv.Atoi v) <> None \/ fst (Strconv.Atoi v) <= 0)) ->
      Port (endpoint ep) = 80).
Proof.
  intros Hin. apply generatorFromIngress_In in Hin.
  destruct Hin as (rule & paths & path & _ & _ & _ & ->). simpl.
  split; intros Hp Hann; injection Hp as Hp; rewrite Hp.
  - rewrite getEndpointPort_https. unfold mapIndex.
    destruct Hann as [->|(v & -> & Hv)]; simpl; [reflexivity|].
    destruct (Strconv.Atoi v) as [port [e|]]; simpl in *; [reflexivity|].
    destruct Hv as [Hv|Hv]; [congruence|].
    destruct (Z.ltb_spec 0 port); [lia | reflexivity].
  - rewrite getEndpointPort_http. unfold mapIndex.
    destruct Hann as [->|(v & -> & Hv)]; simpl; [reflexivity|].
    destruct (Strconv.Atoi v) as [port [e|]]; simpl in *; [reflexivity|].
    destruct Hv as [Hv|Hv]; [congruence|].
    destruct (Z.ltb_spec 0 port); [lia | reflexivity].
Qed.

Lemma ingress_port_defaults_witness :
  Port (endpoint (ingressEndpoint MoreSamples.ingBadPort Samples.ruleA
                                  "https" 443 Samples.root)) = 443
  /\ Port (endpoint (ingressEndpoint Samples.ingAB Samples.ruleB
                                     "http" 80 Samples.root)) = 80.
Proof.
  split.
  - apply (proj1 (ingress_port_defaults MoreSamples.ingBadPort
                    (ingressEndpoint MoreSamples.ingBadPort Samples.ruleA
                                     "https" 443 Samples.root)
                    (or_introl eq_refl))).
    + reflexivity.
    + right. exists "https". split; [reflexivity|].
      left. vm_compute. discriminate.
  - apply (proj2 (ingress_port_defaults Samples.ingAB
                    (ingressEndpoint Samples.ingAB Samples.ruleB
                                     "http" 80 Samples.root)
                    (or_intror (or_intror (or_introl eq_refl))))).
    + reflexivity.
    + left. reflexivity.
Defined.

(** *** Reading back a printed port *)

Lemma digitsValue_of_uint_acc (d : Decimal.uint) (acc : positive) :
  Strconv.digitsValue (Z.pos acc) (NilEmpty.string_of_uint d)
  = Some (Z.pos (Pos.of_uint_acc d acc)).
Proof.
  revert acc. induction d; intros acc; simpl; [reflexivity|..];
    unfold Strconv.isDigit, Strconv.digitOf; cbn -[Z.mul Z.add Pos.of_uint_acc];
    match goal with
    | |- Strconv.digitsValue ?z _ = Some (Z.pos (Pos.of_uint_acc _ ?p)) =>
        replace z with (Z.pos p)
          by (rewrite ?Pos2Z.inj_add, ?Pos2Z.inj_mul;
              match goal with
              | |- context [Z.of_nat (nat_of_ascii ?c)] =>
                  let v := eval vm_compute in (Z.of_nat (nat_of_ascii c)) in
                  change (Z.of_nat (nat_of_ascii c)) with v
              end; lia)
    end; apply IHd.
Qed.

Lemma digitsValue_of_uint (d : Decimal.uint) :
  Strconv.digitsValue 0 (NilEmpty.string_of_uint d)
  = Some (Z.of_N (Pos.of_uint d)).
Proof.
  induction d; simpl; [reflexivity|..];
    unfold Strconv.isDigit, Strconv.digitOf; cbn -[Z.mul Z.add Pos.of_uint_acc];
    first [ exact IHd | apply digitsValue_of_uint_acc ].
Qed.

Lemma string_of_uint_head (d : Decimal.uint) :
  d <> Decimal.Nil ->
  exists c rest, NilEmpty.string_of_uint d = String c rest
                 /\ Strconv.isSign c = false.
Proof.
  destruct d; [congruence|..]; intros _; simpl; eexists; eexists;
    (split; [reflexivity | reflexivity]).
Qed.

(** [Atoi] reads back what [%d] prints, for every value of an [int]. *)
Lemma Atoi_formatInt (z : Z) :
  - 2 ^ 63 <= z < 2 ^ 63 -> Strconv.Atoi (Strconv.formatInt z) = (z, None).
Proof.
  intros Hr. unfold Strconv.formatInt. destruct z as [|p|p]; simpl Z.to_int.
  - reflexivity.
  - simpl NilEmpty.string_of_int.
    destruct (string_of_uint_head (Pos.to_uint p)
                (DecimalPos.Unsigned.to_uint_nonnil p)) as (c & rest & E & Hs).
    pose proof (digitsValue_of_uint (Pos.to_uint p)) as Hd.
    rewrite DecimalPos.Unsigned.of_to in Hd. rewrite E in Hd.
    unfold Strconv.Atoi. rewrite E, Hs.
    assert (Hneg : Ascii.eqb c "-" = false).
    { unfold Strconv.isSign in Hs. now apply orb_false_iff in Hs. }
    rewrite Hneg, Hd. simpl Z.of_N.
    change (2 ^ (GoInt.intSize - 1)) with (2 ^ 63).
    destruct (Z.leb_spec (2 ^ 63) (Z.pos p)); [lia|]. reflexivity.
  - simpl NilEmpty.string_of_int.
    destruct (string_of_uint_head (Pos.to_uint p)
                (DecimalPos.Unsigned.to_uint_nonnil p)) as (c & rest & E & Hs).
    pose proof (digitsValue_of_uint (Pos.to_uint p)) as Hd.
    rewrite DecimalPos.Unsigned.of_to in Hd. rewrite E in Hd.
    unfold Strconv.Atoi. change (Strconv.isSign "-") with true.
    change (Ascii.eqb "-" "-") with true. cbv iota. rewrite E, Hd.
    simpl Z.of_N. change (2 ^ (GoInt.intSize - 1)) with (2 ^ 63).
    simpl negb. simpl andb.
    destruct (Z.ltb_spec (2 ^ 63) (Z.pos p)); [lia|]. reflexivity.
Qed.

(** A port annotation that holds the decimal form of a port between 1
    and 2147483647 is the port of every endpoint of its appProtocol;
    the annotation of the other appProtocol plays no part. *)
Theorem ingress_port_annotation_applies (ingress : Ingress) (ep : ServiceEndpoint)
    (p : Z) :
  In ep (generatorFromIngress ingress) ->
  0 < p < 2 ^ 31 ->
  (AppProtocol (endpoint ep) = Some "https" ->
   Annotations (ing_ObjectMeta ingress) !! AnnoIngressControllerHTTPSPort
   = Some (Strconv.formatInt p) ->
   Port (endpoint ep) = p)
  /\ (AppProtocol (endpoint ep) = Some "http" ->
      Annotations (ing_ObjectMeta ingress) !! AnnoIngressControllerHTTPPort
      = Some (Strconv.formatInt p) ->
      Port (endpoint ep) = p).
Proof.
  intros Hin Hp. apply generatorFromIngress_In in Hin.
  destruct Hin as (rule & paths & path & _ & _ & _ & ->). simpl.
  assert (Ha : Strconv.Atoi (Strconv.formatInt p) = (p, None))
    by (apply Atoi_formatInt; lia).
  assert (H0 : (0 <? p) = true) by (apply Z.ltb_lt; lia).
  assert (H32 : GoInt.int32 p = p)
    by (apply int32_small; unfold GoInt.fits; simpl; lia).
  split; intros Hproto Hann; injection Hproto as Hproto; rewrite Hproto.
  - rewrite getEndpointPort_https. unfold mapIndex. rewrite Hann. simpl.
    now rewrite Ha, H0.
  - rewrite getEndpointPort_http. unfold mapIndex. rewrite Hann. simpl.
    now rewrite Ha, H0.
Qed.

Lemma ingress_port_annotation_applies_witness :
  Port (endpoint (ingressEndpoint Samples.ing8443 Samples.ruleA
                                  "https" 8443 Samples.api)) = 8443.
Proof.
  apply (proj1 (ingress_port_annotation_applies Samples.ing8443
                  (ingressEndpoint Samples.ing8443 Samples.ruleA
                                   "https" 8443 Samples.api)
                  8443 (or_intror (or_introl eq_refl))
                  (conj eq_refl eq_refl))).
  - reflexivity.
  - reflexivity.
Defined.

(** ** Rendering the endpoints of an Ingress *)

(** An endpoint of an Ingress whose port is the default of its
    appProtocol, as it is when the Ingress has no usable port
    annotation, renders as scheme, [://], host and path with no port,
    the path [/] being dropped. *)
Theorem ingress_endpoint_renders_without_port
    (ToLower : string -> string) (ingress : Ingress) (ep : ServiceEndpoint) :
  In ep (generatorFromIngress ingress) ->
  Annotations (ing_ObjectMeta ingress) !! AnnoIngressControllerHTTPSPort = None ->
  Annotations (ing_ObjectMeta ingress) !! AnnoIngressControllerHTTPPort = None ->
  exists scheme,
    AppProtocol (endpoint ep) = Some scheme
    /\ ServiceEndpoint_String ToLower ep
       = scheme +:+ "://" +:+ Host (endpoint ep)
           +:+ (if String.eqb (Path (endpoint ep)) "/" then ""
                else Path (endpoint ep)).
Proof.
  intros Hin Hs Hp. apply generatorFromIngress_In in Hin.
  destruct Hin as (rule & paths & path & _ & _ & _ & ->).
  exists (getAppProtocol ingress (rule_Host rule)). split; [reflexivity|].
  unfold ServiceEndpoint_String, urlScheme, urlPath. simpl.
  assert (Hd : defaultPort (getAppProtocol ingress (rule_Host rule))
                 (GoInt.int32
                    (getEndpointPort ingress
                       (getAppProtocol ingress (rule_Host rule)))) = true).
  { destruct (getAppProtocol_cases ingress (rule_Host rule)) as [-> | ->].
    - rewrite getEndpointPort_https. unfold mapIndex. rewrite Hs. reflexivity.
    - rewrite getEndpointPort_http. unfold mapIndex. rewrite Hp. reflexivity. }
  now rewrite Hd.
Qed.

Lemma ingress_endpoint_renders_without_port_witness :
  exists scheme,
    Some "https" = Some scheme
    /\ ServiceEndpoint_String asciiToLower
         (ingressEndpoint Samples.ingAB Samples.ruleA "https" 443 Samples.root)
       = scheme +:+ "://" +:+ "a.example.com" +:+ "".
Proof.
  apply (ingress_endpoint_renders_without_port asciiToLower Samples.ingAB
           (ingressEndpoint Samples.ingAB Samples.ruleA "https" 443 Samples.root)
           (or_introl eq_refl)).
  - reflexivity.
  - reflexivity.
Defined.

(** * Further properties of the service-endpoint handler *)

Section ServiceEndpointContributions.

Variable getApplication : string -> string -> string -> GetResult Application.
Variable getIngress :
  GroupVersionKind -> string -> string -> string -> GetResult Ingress.
Variable getService :
  GroupVersionKind -> string -> string -> string -> GetResult Service.
Variable CollectServices : string -> string -> string -> list Service * error.
Variable CollectIngress : string -> string -> string -> list Ingress * error.
Variable isResourceInTargetCluster :
  FilterOption -> ClusterObjectReference -> bool.

Local Abbreviation step :=
  (resourceStep getIngress getService CollectServices CollectIngress
                isResourceInTargetCluster).
Local Abbreviation collect :=
  (collectServiceEndpoints getIngress getService CollectServices
                           CollectIngress isResourceInTargetCluster).

(** An iteration only ever appends to what the earlier ones produced. *)
Lemma resourceStep_appends (filter : FilterOption)
    (acc : list ServiceEndpoint) (resource : ClusterObjectReference) :
  step filter acc resource = acc ++ step filter [] resource.
Proof.
  unfold resourceStep.
  destruct (negb (isResourceInTargetCluster filter resource));
    [now rewrite app_nil_r|].
  destruct (String.eqb (cor_Kind resource) "Ingress").
  { destruct (supportedIngressVersion resource); [|now rewrite app_nil_r].
    destruct (findResource _ _) as [ing [e|]]; [now rewrite app_nil_r|].
    reflexivity. }
  destruct (String.eqb (cor_Kind resource) "Service").
  { destruct (findResource _ _) as [svc [e|]]; [now rewrite app_nil_r|].
    reflexivity. }
  destruct (String.eqb (cor_Kind resource) HelmReleaseKind);
    [|now rewrite app_nil_r].
  destruct (CollectServices _ _ _) as [services e1].
  destruct (CollectIngress _ _ _) as [ingress e2].
  unfold appendIngresses, appendServices.
  rewrite !fold_left_append_flat_map. simpl. now rewrite app_assoc.
Qed.

Lemma collect_flat_map (filter : FilterOption)
    (resources : list ClusterObjectReference) (acc : list ServiceEndpoint) :
  fold_left (step filter) resources acc
  = acc ++ flat_map (step filter []) resources.
Proof.
  revert acc. induction resources as [|r rs IH]; intros acc; simpl.
  - now rewrite app_nil_r.
  - rewrite IH, resourceStep_appends. now rewrite <- app_assoc.
Qed.

(** The list the handler fills is the concatenation, in the recorded
    order of the applied resources, of what each resource contributes
    on its own; so the endpoints of two resource lists put one after
    the other are the endpoints of the first followed by those of the
    second. *)
Theorem collect_concatenates (filter : FilterOption)
    (pre post : list ClusterObjectReference) :
  collect filter (pre ++ post) = collect filter pre ++ collect filter post
  /\ collect filter pre = flat_map (step filter []) pre.
Proof.
  unfold collectServiceEndpoints. split.
  - rewrite !collect_flat_map. simpl. now rewrite flat_map_app.
  - now rewrite collect_flat_map.
Qed.

(** Resources that [isResourceInTargetCluster] rejects leave no trace:
    the handler's list is the list it would fill for the accepted
    resources alone. *)
Theorem collect_only_target_resources (filter : FilterOption)
    (resources : list ClusterObjectReference) :
  collect filter resources
  = collect filter
      (List.filter (isResourceInTargetCluster filter) resources).
Proof.
  unfold collectServiceEndpoints. rewrite !collect_flat_map. simpl.
  induction resources as [|r rs IH]; simpl; [reflexivity|].
  destruct (isResourceInTargetCluster filter r) eqn:E; simpl.
  - now rewrite IH.
  - rewrite <- IH. unfold resourceStep at 1. now rewrite E.
Qed.

(** An application that the object store does not have is no error for
    the handler: it fills the empty list; any other failure of the
    lookup ends the handler with the error "query app failure ...". *)
Theorem missing_application_fills_empty_list (opt : QueryOption) :
  (getApplication (opt_Name opt) (opt_Namespace opt) "" = NotFound ->
   GeneratorServiceEndpoints getApplication getIngress getService
     CollectServices CollectIngress isResourceInTargetCluster (Ok opt)
   = Fill [] "list")
  /\ (forall msg,
        getApplication (opt_Name opt) (opt_Namespace opt) "" = GetFailed msg ->
        GeneratorServiceEndpoints getApplication getIngress getService
          CollectServices CollectIngress isResourceInTargetCluster (Ok opt)
        = Return ("query app failure " +:+ msg)).
Proof.
  unfold GeneratorServiceEndpoints. split.
  - intros ->. reflexivity.
  - intros msg ->. reflexivity.
Qed.

(** A Service or a supported Ingress that the object store does not
    have, or that it fails to deliver, contributes no endpoint, and so
    does a resource of any kind other than Ingress, Service and
    HelmRelease. *)
Theorem unavailable_resource_contributes_nothing (filter : FilterOption)
    (resource : ClusterObjectReference) :
  (cor_Kind resource = "Service"
   /\ forall service,
        getService (resourceGVK resource) (cor_Name resource)
                   (cor_Namespace resource) (cor_Cluster resource)
        <> Found service)
  \/ (cor_Kind resource = "Ingress"
      /\ forall ingress,
           getIngress (resourceGVK resource) (cor_Name resource)
                      (cor_Namespace resource) (cor_Cluster resource)
           <> Found ingress)
  \/ (cor_Kind resource <> "Ingress" /\ cor_Kind resource <> "Service"
      /\ cor_Kind resource <> "HelmRelease") ->
  step filter [] resource = [].
Proof.
  intros H. unfold resourceStep.
  destruct (negb (isResourceInTargetCluster filter resource)); [reflexivity|].
  destruct H as [[Hk Hg]|[[Hk Hg]|(H1 & H2 & H3)]].
  - rewrite Hk. simpl.
    destruct (getService _ _ _ _) as [svc| |msg]; simpl;
      [exfalso; eapply Hg; reflexivity | reflexivity | reflexivity].
  - rewrite Hk. simpl.
    destruct (supportedIngressVersion resource); [|reflexivity].
    destruct (getIngress _ _ _ _) as [ing| |msg]; simpl;
      [exfalso; eapply Hg; reflexivity | reflexivity | reflexivity].
  - rewrite (proj2 (String.eqb_neq _ _) H1), (proj2 (String.eqb_neq _ _) H2).
    unfold HelmReleaseKind. now rewrite (proj2 (String.eqb_neq _ _) H3).
Qed.

(** A HelmRelease in the target cluster contributes the endpoints of
    the Services its collector returns, then those of the Ingresses it
    returns, each group in the collector's order, whether or not the
    collector also reports an error. *)
Theorem helmRelease_contribution (filter : FilterOption)
    (resource : ClusterObjectReference) :
  isResourceInTargetCluster filter resource = true ->
  cor_Kind resource = "HelmRelease" ->
  step filter [] resource
  = flat_map generatorFromService
      (fst (CollectServices (cor_Namespace resource) (cor_Name resource)
                            (cor_Cluster resource)))
    ++ flat_map generatorFromIngress
         (fst (CollectIngress (cor_Namespace resource) (cor_Name resource)
                              (cor_Cluster resource))).
Proof.
  intros Hin Hk. unfold resourceStep. rewrite Hin, Hk. simpl.
  destruct (CollectServices _ _ _) as [services e1].
  destruct (CollectIngress _ _ _) as [ingress e2].
  unfold appendIngresses, appendServices.
  now rewrite !fold_left_append_flat_map.
Qed.

End ServiceEndpointContributions.

Lemma missing_application_fills_empty_list_witness :
  GeneratorServiceEndpoints (fun _ _ _ => NotFound) Samples.storeIngress
    Samples.storeService Samples.noServices Samples.noIngresses
    Samples.everywhere (Ok Samples.appOption)
  = Fill [] "list"
  /\ GeneratorServiceEndpoints (fun _ _ _ => GetFailed "timeout")
       Samples.storeIngress Samples.storeService Samples.noServices
       Samples.noIngresses Samples.everywhere (Ok Samples.appOption)
     = Return ("query app failure " +:+ "timeout").
Proof.
  split.
  - apply (proj1 (missing_application_fills_empty_list (fun _ _ _ => NotFound)
                    Samples.storeIngress Samples.storeService Samples.noServices
                    Samples.noIngresses Samples.everywhere Samples.appOption)).
    reflexivity.
  - apply (proj2 (missing_application_fills_empty_list
                    (fun _ _ _ => GetFailed "timeout")
                    Samples.storeIngress Samples.storeService Samples.noServices
                    Samples.noIngresses Samples.everywhere Samples.appOption)).
    reflexivity.
Defined.

Lemma unavailable_resource_contributes_nothing_witness :
  resourceStep Samples.storeIngress (fun _ _ _ _ => GetFailed "timeout")
    Samples.noServices Samples.noIngresses Samples.everywhere
    Samples.noFilter [] Samples.frontService = [].
Proof.
  apply (unavailable_resource_contributes_nothing Samples.storeIngress
           (fun _ _ _ _ => GetFailed "timeout") Samples.noServices
           Samples.noIngresses Samples.everywhere Samples.noFilter
           Samples.frontService).
  left. split; [reflexivity | intros service H; discriminate].
Defined.

Lemma helmRelease_contribution_witness :
  resourceStep Samples.storeIngress Samples.storeService
    MoreSamples.releaseServices MoreSamples.releaseIngresses Samples.everywhere
    Samples.noFilter [] MoreSamples.redisRelease
  = flat_map generatorFromService
      (fst (MoreSamples.releaseServices "default" "redis" "edge"))
    ++ flat_map generatorFromIngress
         (fst (MoreSamples.releaseIngresses "default" "redis" "edge")).
Proof.
  apply (helmRelease_contribution Samples.storeIngress Samples.storeService
           MoreSamples.releaseServices MoreSamples.releaseIngresses
           Samples.everywhere Samples.noFilter MoreSamples.redisRelease).
  - reflexivity.
  - reflexivity.
Defined.

(** * Further properties of the log handler *)

Lemma string_app_assoc (a b c : string) : (a +:+ b) +:+ c = a +:+ b +:+ c.
Proof.
  induction a as [|x a IH]; [reflexivity|].
  change (String x ((a +:+ b) +:+ c) = String x (a +:+ b +:+ c)).
  now rewrite IH.
Qed.

Lemma string_app_nil_r (a : string) : a +:+ "" = a.
Proof.
  induction a as [|x a IH]; [reflexivity|].
  change (String x (a +:+ "") = String x a). now rewrite IH.
Qed.

Lemma stripPrefix_app (l s : string) : Regexp.stripPrefix l (l +:+ s) = Some s.
Proof.
  induction l as [|c l IH]; [now destruct s|].
  change (String c l +:+ s) with (String c (l +:+ s)). simpl.
  now rewrite Ascii.eqb_refl.
Qed.

Lemma stripPrefix_Some (l s s' : string) :
  Regexp.stripPrefix l s = Some s' -> s = l +:+ s'.
Proof.
  revert s. induction l as [|c l IH]; intros s; simpl.
  - destruct s; intros H; injection H as <-; reflexivity.
  - destruct s as [|b s]; [discriminate|].
    destruct (Ascii.eqb_spec c b) as [->|]; [|discriminate].
    intros H. rewrite (IH _ H). reflexivity.
Qed.

Lemma matchHere_DotPlus_unfold (rest : list Regexp.atom) (c : ascii) (s : string) :
  Regexp.matchHere (Regexp.DotPlus :: rest) (String c s)
  = if Regexp.isNewline c then false
    else Regexp.matchHere rest s
         || Regexp.matchHere (Regexp.DotPlus :: rest) s.
Proof. reflexivity. Qed.

Lemma matchHere_DotPlus_intro (rest : list Regexp.atom) (x s : string) :
  oneLine x -> Regexp.matchHere rest s = true ->
  Regexp.matchHere (Regexp.DotPlus :: rest) (x +:+ s) = true.
Proof.
  intros [Hne Hnl] Hrest. induction x as [|c x IH]; [congruence|].
  simpl in Hnl. apply andb_true_iff in Hnl. destruct Hnl as [Hc Hx].
  change (String c x +:+ s) with (String c (x +:+ s)).
  rewrite matchHere_DotPlus_unfold.
  apply negb_true_iff in Hc. rewrite Hc.
  destruct x as [|d x].
  - change ("" +:+ s) with s. now rewrite Hrest.
  - rewrite IH; [apply orb_true_r | discriminate | exact Hx].
Qed.

Lemma matchHere_DotPlus_elim (rest : list Regexp.atom) (s : string) :
  Regexp.matchHere (Regexp.DotPlus :: rest) s = true ->
  exists x s', s = x +:+ s' /\ oneLine x /\ Regexp.matchHere rest s' = true.
Proof.
  induction s as [|c s IH]; [discriminate|].
  rewrite matchHere_DotPlus_unfold.
  destruct (Regexp.isNewline c) eqn:Hc; [discriminate|].
  intros H. apply orb_true_iff in H. destruct H as [H|H].
  - exists (String c ""), s. repeat split; [discriminate | | exact H].
    simpl. now rewrite Hc.
  - destruct (IH H) as (x & s' & -> & [Hne Hnl] & Hrest).
    exists (String c x), s'. repeat split; [discriminate | | exact Hrest].
    simpl. now rewrite Hc.
Qed.

Lemma matchHere_Lit_elim (l : string) (rest : list Regexp.atom) (s : string) :
  Regexp.matchHere (Regexp.Lit l :: rest) s = true ->
  exists s', s = l +:+ s' /\ Regexp.matchHere rest s' = true.
Proof.
  simpl. destruct (Regexp.stripPrefix l s) as [s'|] eqn:E; [|discriminate].
  intros H. exists s'. split; [now apply stripPrefix_Some | exact H].
Qed.

Lemma matchHere_Lit_intro (l : string) (rest : list Regexp.atom) (s : string) :
  Regexp.matchHere rest s = true ->
  Regexp.matchHere (Regexp.Lit l :: rest) (l +:+ s) = true.
Proof. intros H. simpl. now rewrite stripPrefix_app. Qed.

Lemma MatchString_intro (pat : list Regexp.atom) (pre s : string) :
  Regexp.matchHere pat s = true -> Regexp.MatchString pat (pre +:+ s) = true.
Proof.
  intros H. induction pre as [|c pre IH].
  - change ("" +:+ s) with s. destruct s; simpl; now rewrite H.
  - change (String c pre +:+ s) with (String c (pre +:+ s)). simpl.
    rewrite IH. apply orb_true_r.
Qed.

Lemma MatchString_elim (pat : list Regexp.atom) (s : string) :
  Regexp.MatchString pat s = true ->
  exists pre s', s = pre +:+ s' /\ Regexp.matchHere pat s' = true.
Proof.
  induction s as [|c s IH]; simpl; intros H; apply orb_true_iff in H.
  - destruct H as [H|H]; [|discriminate]. now exists "", "".
  - destruct H as [H|H].
    + now exists "", (String c s).
    + destruct (IH H) as (pre & s' & -> & Hm). now exists (String c pre), s'.
Qed.

(** An error is the recognised stream condition exactly when its
    message contains, anywhere, the text
    [previous terminated container C in pod P not found] for some
    non-empty, newline-free [C] and [P]; a nil error never is. *)
Theorem isTerminatedContainerNotFound_iff (err : error) :
  isTerminatedContainerNotFound err = true
  <-> exists pre container pod post,
        err = Some (pre +:+ "previous terminated container " +:+ container
                        +:+ " in pod " +:+ pod +:+ " not found" +:+ post)
        /\ oneLine container /\ oneLine pod.
Proof.
  unfold isTerminatedContainerNotFound, terminatedContainerNotFoundRegex. split.
  - destruct err as [msg|]; [|discriminate]. intros H.
    apply MatchString_elim in H. destruct H as (pre & s1 & -> & H).
    apply matchHere_Lit_elim in H. destruct H as (s2 & -> & H).
    apply matchHere_DotPlus_elim in H. destruct H as (c & s3 & -> & Hc & H).
    apply matchHere_Lit_elim in H. destruct H as (s4 & -> & H).
    apply matchHere_DotPlus_elim in H. destruct H as (p & s5 & -> & Hp & H).
    apply matchHere_Lit_elim in H. destruct H as (post & -> & _).
    exists pre, c, p, post. auto.
  - intros (pre & c & p & post & -> & Hc & Hp).
    apply MatchString_intro, matchHere_Lit_intro, matchHere_DotPlus_intro;
      [exact Hc|].
    apply matchHere_Lit_intro, matchHere_DotPlus_intro; [exact Hp|].
    now apply matchHere_Lit_intro.
Qed.

Lemma fold_left_append_join (chunks : list string) (b : string) :
  fold_left (fun b chunk => b +:+ chunk) chunks b = b +:+ joinChunks chunks.
Proof.
  revert b. induction chunks as [|c l IH]; intros b; simpl.
  - now rewrite string_app_nil_r.
  - rewrite IH. apply string_app_assoc.
Qed.

Lemma joinChunks_snoc (chunks : list string) (last : string) :
  joinChunks chunks +:+ last = joinChunks (chunks ++ [last]).
Proof.
  induction chunks as [|c l IH].
  - simpl. now rewrite string_app_nil_r.
  - change (joinChunks (c :: l)) with (c +:+ joinChunks l).
    change (joinChunks ((c :: l) ++ [last]))
      with (c +:+ joinChunks (l ++ [last])).
    now rewrite string_app_assoc, IH.
Qed.

(** When the stream opens, the handler fills the text of every chunk
    the reader delivered, in order, the one delivered together with the
    final error included.  The result has no [err] when the stream
    ended with end-of-file, and otherwise carries the read error's
    message next to the text read so far. *)
Theorem opened_stream_is_read_to_its_end
    (Value : Type) (val : Value) (cluster namespace pod : string)
    (unmarshalOptions : Value -> result PodLogOptions) (opts : PodLogOptions)
    (podsGet : string -> string -> string -> result Pod) (podInst : Pod)
    (Stream : string -> string -> string -> PodLogOptions -> result LogStream)
    (Now : Time) (s : LogStream) :
  unmarshalOptions val = Ok opts ->
  podsGet cluster namespace pod = Ok podInst ->
  Stream cluster namespace pod opts = Ok s ->
  CollectLogsInPod Value (Ok cluster) (Ok namespace) (Ok pod) (Ok val)
    unmarshalOptions None podsGet Stream Now
  = Fill {| logs := joinChunks (reads s ++ [lastRead s]);
            fromDate := resolveFromDate opts Now podInst;
            toDate := Now;
            out_err := match lastErr s with
                       | EOF => None
                       | ReadFailed msg => Some msg
                       end |} "outputs".
Proof.
  intros Hu Hp Hs. unfold CollectLogsInPod. rewrite Hu, Hp, Hs.
  unfold readAll. rewrite fold_left_append_join.
  change ("" +:+ joinChunks (reads s)) with (joinChunks (reads s)).
  rewrite joinChunks_snoc. destruct (lastErr s); reflexivity.
Qed.

Lemma opened_stream_is_read_to_its_end_witness :
  CollectLogsInPod unit (Ok "edge") (Ok "default") (Ok "front-0") (Ok tt)
    (fun _ => Ok (Samples.optsSince (Some 60) None)) None Samples.podStore
    MoreSamples.streamBroken Samples.clock
  = Fill {| logs := joinChunks (["one"] ++ ["tw"]);
            fromDate := resolveFromDate (Samples.optsSince (Some 60) None)
                                        Samples.clock Samples.pod;
            toDate := Samples.clock;
            out_err := Some "connection reset" |} "outputs".
Proof.
  apply (opened_stream_is_read_to_its_end unit tt "edge" "default" "front-0"
           (fun _ => Ok (Samples.optsSince (Some 60) None))
           (Samples.optsSince (Some 60) None) Samples.podStore Samples.pod
           MoreSamples.streamBroken Samples.clock
           {| reads := ["one"]; lastRead := "tw";
              lastErr := ReadFailed "connection reset" |}).
  - reflexivity.
  - reflexivity.
  - reflexivity.
Defined.

(** The log handler never reports through the [err] field of the value
    (it has no [FillObject(..., "err")]): it either returns an error or
    fills [outputs], and whenever it fills, [toDate] is the clock
    reading and the [err] of the result is set only if the stream did
    not open or broke while being read. *)
Theorem log_handler_outcomes
    (Value : Type) (getCluster getNamespace getPod : result string)
    (lookupOptions : result Value)
    (unmarshalOptions : Value -> result PodLogOptions) (newClientSet : error)
    (podsGet : string -> string -> string -> result Pod)
    (Stream : string -> string -> string -> PodLogOptions -> result LogStream)
    (Now : Time) :
  let outcome :=
    CollectLogsInPod Value getCluster getNamespace getPod lookupOptions
      unmarshalOptions newClientSet podsGet Stream Now in
  (forall msg, outcome <> FillErr msg)
  /\ (forall o field,
        outcome = Fill o field ->
        field = "outputs" /\ toDate o = Now
        /\ exists cluster namespace pod val opts,
             getCluster = Ok cluster /\ getNamespace = Ok namespace
             /\ getPod = Ok pod /\ lookupOptions = Ok val
             /\ unmarshalOptions val = Ok opts
             /\ match Stream cluster namespace pod opts with
                | Ok s => logs o = joinChunks (reads s ++ [lastRead s])
                          /\ (out_err o = None <-> lastErr s = EOF)
                | Err e => logs o = "" /\ out_err o = Some e
                           /\ isTerminatedContainerNotFound (Some e) = true
                end).
Proof.
  intros outcome. subst outcome. unfold CollectLogsInPod.
  destruct getCluster as [cluster|e]; [|split; intros; discriminate].
  destruct getNamespace as [namespace|e]; [|split; intros; discriminate].
  destruct getPod as [pod|e]; [|split; intros; discriminate].
  destruct lookupOptions as [val|e]; [|split; intros; discriminate].
  destruct (unmarshalOptions val) as [opts|e] eqn:Hu;
    [|split; intros; discriminate].
  destruct newClientSet as [e|]; [split; intros; discriminate|].
  destruct (podsGet cluster namespace pod) as [podInst|e];
    [|split; intros; discriminate].
  destruct (Stream cluster namespace pod opts) as [s|e] eqn:Hs.
  - unfold readAll. rewrite fold_left_append_join.
    change ("" +:+ joinChunks (reads s)) with (joinChunks (reads s)).
    rewrite joinChunks_snoc.
    destruct (lastErr s) as [|m] eqn:Hl; unfold fillOutputs;
      (split; [intros; discriminate|]);
      intros o field H; injection H as <- <-; simpl;
      (split; [reflexivity|]); (split; [reflexivity|]);
      exists cluster, namespace, pod, val, opts; rewrite Hs, Hl;
      repeat split; auto; discriminate.
  - destruct (isTerminatedContainerNotFound (Some e)) eqn:Hm;
      cbn [negb]; [|split; intros; discriminate].
    unfold fillOutputs. split; [intros; discriminate|].
    intros o field H. injection H as <- <-. cbn [logs toDate out_err].
    split; [reflexivity|]. split; [reflexivity|].
    exists cluster, namespace, pod, val, opts. rewrite Hs.
    repeat split; auto.
Qed.

(** With no since-time and a since-seconds value whose nanosecond count
    fits [int64], the window starts that many seconds before [toDate]:
    not after it when the value is not negative, and after it when the
    value is negative. *)
Theorem since_seconds_window (opts : PodLogOptions) (now : Time) (pod : Pod)
    (s : Z) :
  SinceTime opts = None -> SinceSeconds opts = Some s ->
  - 2 ^ 63 < s * Second < 2 ^ 63 ->
  resolveFromDate opts now pod = now - s * Second
  /\ (0 <= s -> resolveFromDate opts now pod <= now)
  /\ (s < 0 -> now < resolveFromDate opts now pod).
Proof.
  intros H1 H2 Hr.
  rewrite (resolveFromDate_sinceSeconds opts now pod s H1 H2 Hr).
  unfold Second in *. repeat split; intros; lia.
Qed.

Lemma since_seconds_window_witness :
  resolveFromDate (Samples.optsSince (Some 3600) None) Samples.clock Samples.pod
  = Samples.clock - 3600 * Second
  /\ (0 <= 3600 ->
      resolveFromDate (Samples.optsSince (Some 3600) None) Samples.clock Samples.pod
      <= Samples.clock)
  /\ (3600 < 0 ->
      Samples.clock
      < resolveFromDate (Samples.optsSince (Some 3600) None) Samples.clock
                        Samples.pod).
Proof.
  apply (since_seconds_window (Samples.optsSince (Some 3600) None)
           Samples.clock Samples.pod 3600).
  - reflexivity.
  - reflexivity.
  - unfold Second. lia.
Defined.

(** * Addon status *)

Section AddonStatus.

Variable allocateDomainForAddon : result (list Addon.ObservabilityEnvironment).
Variable getClusterService : string -> result Service.
Variable getLocalService : result Service.
Variable ApplicationRunning : string.
Variable ApplicationDeleting : string.
Variable ObservabilityAddon : string.
Variable ObservabilityAddonDomainArg : string.
Variable FetchAddonRelatedApp : string -> GetResult Addon.AppStatus.
Variable getSecretData : result (gmap string string).

Local Abbreviation status :=
  (Addon.GetAddonStatus allocateDomainForAddon getClusterService
     getLocalService ApplicationRunning ApplicationDeleting ObservabilityAddon
     ObservabilityAddonDomainArg FetchAddonRelatedApp getSecretData).
Local Abbreviation accessInfo :=
  (Addon.GetObservabilityAccessibilityInfo allocateDomainForAddon
     getClusterService getLocalService).

(** [GetAddonStatus] returns an error exactly when fetching the
    application fails for another reason than its absence, and then
    with an empty status.  Otherwise the phase is one of the five phase
    names: [disabled] exactly when the application does not exist,
    [suspend] exactly when it exists with a suspended workflow; and the
    status carries the application's status exactly when the
    application was found. *)
Theorem addon_status_phases (name : string) :
  (forall msg, snd (status name) = Some msg
               <-> FetchAddonRelatedApp name = GetFailed msg)
  /\ (forall msg, FetchAddonRelatedApp name = GetFailed msg ->
                  fst (status name) = Addon.zeroStatus)
  /\ (snd (status name) = None ->
      In (Addon.AddonPhase (fst (status name)))
         [Addon.disabled; Addon.enabled; Addon.enabling; Addon.disabling;
          Addon.suspend])
  /\ (Addon.AddonPhase (fst (status name)) = Addon.disabled
      <-> FetchAddonRelatedApp name = NotFound)
  /\ (Addon.AddonPhase (fst (status name)) = Addon.suspend
      <-> exists app, FetchAddonRelatedApp name = Found app
                      /\ Addon.isSuspended app = true)
  /\ (forall app, Addon.AppStatusOf (fst (status name)) = Some app
                  <-> FetchAddonRelatedApp name = Found app).
Proof.
  unfold Addon.GetAddonStatus.
  destruct (FetchAddonRelatedApp name) as [app| |e].
  - assert (Hfound : forall P : Addon.AppStatus -> Prop,
               (exists a, Found app = Found a /\ P a) <-> P app).
    { intros P. split; [intros (a & Ha & HP); now injection Ha as ->
                       | intros HP; now exists app]. }
    destruct (Addon.isSuspended app) eqn:Hs;
      [|destruct (String.eqb (Addon.Phase app) ApplicationRunning);
        [destruct (String.eqb name ObservabilityAddon);
         [destruct getSecretData as [data|e];
          [destruct (Addon.GetObservabilityAccessibilityInfo _ _ _ _)|]|]
        |destruct (String.eqb (Addon.Phase app) ApplicationDeleting)]];
      simpl; rewrite Hfound;
      (repeat split; try discriminate; try congruence; intros;
       try discriminate; try congruence; simpl; tauto).
  - simpl. repeat split; try discriminate; try congruence; intros;
      try discriminate; try tauto.
    destruct H as (a & Ha & _). discriminate.
  - simpl. repeat split; try discriminate; try congruence; intros;
      try discriminate; try congruence.
    destruct H as (a & Ha & _). discriminate.
Qed.


(** Every member cluster's endpoint Service being readable, the
    accessibility information keeps the allocated environments in
    their order and with their cluster, domain and load-balancer IP,
    and sets the external IP of an environment to the IP of its
    Service's ingress entry when the Service has exactly one entry,
    leaving it as allocated otherwise.  With no environment allocated,
    the information is read from the local Service: one environment
    holding only the external IP, or none. *)
Theorem accessibility_info_of_readable_clusters
    (domain : string) (domains : list Addon.ObservabilityEnvironment) :
  allocateDomainForAddon = Ok domains ->
  (forall d, In d domains ->
             exists svc, getClusterService (Addon.Cluster d) = Ok svc) ->
  (domains <> [] ->
   accessInfo domain
   = Ok (map (fun d =>
                match getClusterService (Addon.Cluster d) with
                | Ok svc =>
                    match Addon.soleIngressIP svc with
                    | Some ip =>
                        {| Addon.Cluster := Addon.Cluster d;
                           Addon.Domain := Addon.Domain d;
                           Addon.LoadBalancerIP := Addon.LoadBalancerIP d;
                           Addon.ServiceExternalIP := ip |}
                    | None => d
                    end
                | Err _ => d
                end)
             domains))
  /\ (domains = [] ->
      accessInfo domain
      = match getLocalService with
        | Err e => Err e
        | Ok svc =>
            match Addon.soleIngressIP svc with
            | Some ip =>
                Ok [ {| Addon.Cluster := ""; Addon.Domain := "";
                        Addon.LoadBalancerIP := "";
                        Addon.ServiceExternalIP := ip |} ]
            | None => Ok []
            end
        end).
Proof.
  intros Ha Hall. unfold Addon.GetObservabilityAccessibilityInfo. rewrite Ha.
  split.
  - intros Hne.
    assert (Hfill : forall ds,
               (forall d, In d ds ->
                          exists svc, getClusterService (Addon.Cluster d) = Ok svc) ->
               Addon.fillExternalIPs getClusterService ds
               = Ok (map (fun d =>
                            match getClusterService (Addon.Cluster d) with
                            | Ok svc =>
                                match Addon.soleIngressIP svc with
                                | Some ip => Addon.setServiceExternalIP d ip
                                | None => d
                                end
                            | Err _ => d
                            end) ds)).
    { induction ds as [|d ds IH]; intros Hds; simpl; [reflexivity|].
      destruct (Hds d (or_introl eq_refl)) as (svc & Hsvc). rewrite Hsvc.
      rewrite IH by (intros; apply Hds; now right). reflexivity. }
    rewrite (Hfill domains Hall).
    destruct domains as [|d ds]; [congruence|]. reflexivity.
  - intros ->. simpl. destruct getLocalService as [svc|e]; [|reflexivity].
    destruct (Addon.soleIngressIP svc); reflexivity.
Qed.

(** If the endpoint Service of some member cluster cannot be read, the
    accessibility information is an error, that of a failing cluster,
    and no environment is returned. *)
Theorem accessibility_info_fails_as_a_whole
    (domain : string) (domains : list Addon.ObservabilityEnvironment) :
  allocateDomainForAddon = Ok domains ->
  (exists d e, In d domains /\ getClusterService (Addon.Cluster d) = Err e) ->
  exists d e,
    In d domains /\ getClusterService (Addon.Cluster d) = Err e
    /\ accessInfo domain = Err e.
Proof.
  intros Ha Hbad. unfold Addon.GetObservabilityAccessibilityInfo. rewrite Ha.
  assert (Hfill : exists d e,
             In d domains /\ getClusterService (Addon.Cluster d) = Err e
             /\ Addon.fillExternalIPs getClusterService domains = Err e).
  { clear Ha. induction domains as [|d ds IH].
    - destruct Hbad as (d & e & [] & _).
    - simpl. destruct (getClusterService (Addon.Cluster d)) as [svc|e] eqn:Hd.
      + destruct IH as (d' & e' & Hin & He & Hf).
        { destruct Hbad as (d' & e' & [<-|Hin] & He); [congruence|].
          now exists d', e'. }
        exists d', e'. rewrite Hf. auto.
      + exists d, e. auto. }
  destruct Hfill as (d & e & Hin & He & Hf). exists d, e. now rewrite Hf.
Qed.

End AddonStatus.

Lemma accessibility_info_of_readable_clusters_witness :
  Addon.GetObservabilityAccessibilityInfo (Ok MoreSamples.twoClusters)
    MoreSamples.clusterServices (Err "unused") "example.com"
  = Ok [ {| Addon.Cluster := "east"; Addon.Domain := "east.example.com";
            Addon.LoadBalancerIP := "10.1.0.1";
            Addon.ServiceExternalIP := "192.0.2.10" |};
         MoreSamples.envOf "west" "" "" ].
Proof.
  apply (proj1 (accessibility_info_of_readable_clusters
                  (Ok MoreSamples.twoClusters) MoreSamples.clusterServices
                  (Err "unused") "example.com" MoreSamples.twoClusters
                  eq_refl
                  (fun d _ =>
                     match String.eqb (Addon.Cluster d) "east" as b
                       return exists svc,
                                (if b
                                 then Ok (MoreSamples.endpointService
                                            [{| lb_IP := "192.0.2.10";
                                                lb_Hostname := "" |}])
                                 else Ok (MoreSamples.endpointService []))
                                = Ok svc
                     with
                     | true => ex_intro _ _ eq_refl
                     | false => ex_intro _ _ eq_refl
                     end))).
  discriminate.
Defined.

Lemma accessibility_info_fails_as_a_whole_witness :
  exists d e,
    In d MoreSamples.twoClusters
    /\ (if String.eqb (Addon.Cluster d) "west" then Err "unreachable"
        else MoreSamples.clusterServices (Addon.Cluster d)) = Err e
    /\ Addon.GetObservabilityAccessibilityInfo (Ok MoreSamples.twoClusters)
         (fun c => if String.eqb c "west" then Err "unreachable"
                   else MoreSamples.clusterServices c)
         (Err "unused") "example.com"
       = Err e.
Proof.
  apply (accessibility_info_fails_as_a_whole
           (Ok MoreSamples.twoClusters)
           (fun c => if String.eqb c "west" then Err "unreachable"
                     else MoreSamples.clusterServices c)
           (Err "unused") "example.com" MoreSamples.twoClusters eq_refl).
  exists (MoreSamples.envOf "west" "" ""), "unreachable".
  split; [right; left; reflexivity | reflexivity].
Defined.

(** In the [Clusters] map of the status, the entry of a cluster is made
    from the last environment of that cluster in the accessibility
    information, an earlier environment of the same cluster being
    overwritten; a cluster without environment has no entry. *)
Theorem clusters_map_last_wins (ObservabilityAddon : string)
    (observability : list Addon.ObservabilityEnvironment) (cluster : string) :
  Addon.clustersOf ObservabilityAddon observability !! cluster
  = match last (List.filter (fun o => String.eqb (Addon.Cluster o) cluster)
                            observability) with
    | Some o =>
        Some {| Addon.ca_domain := Addon.Domain o;
                Addon.ca_loadBalancerIP := Addon.LoadBalancerIP o;
                Addon.ca_access :=
                  if String.eqb (Addon.LoadBalancerIP o) ""
                  then "No loadBalancer found, visiting by using 'vela port-forward "
                         +:+ ObservabilityAddon
                  else "Visiting URL: " +:+ Addon.Domain o +:+ ", IP: "
                         +:+ Addon.LoadBalancerIP o;
                Addon.ca_serviceExternalIP := Addon.ServiceExternalIP o |}
    | None => None
    end.
Proof.
  unfold Addon.clustersOf.
  induction observability as [|o l IH] using rev_ind.
  - simpl. apply lookup_empty.
  - rewrite fold_left_app, List.filter_app. simpl.
    destruct (String.eqb_spec (Addon.Cluster o) cluster) as [E|E].
    + rewrite last_snoc, E, lookup_insert_eq.
      unfold Addon.clusterEntry, Addon.accessOf.
      now destruct (String.eqb (Addon.LoadBalancerIP o) "").
    + rewrite app_nil_r, lookup_insert_ne by exact E. exact IH.
Qed.

(** * Application webhooks *)

(** Each construction of the webhook use case appends the two payload
    types to [WebhookHandlers] again: after [n] constructions the
    variable holds what it held before followed by [n] copies of the
    pair, so its length has grown by [2 * n]. *)
Theorem handlers_grow_with_each_construction
    (PayloadTypeCustom PayloadTypeACR : string) (n : nat)
    (WebhookHandlers : list string) :
  Nat.iter n (Webhook.NewWebhookUsecase PayloadTypeCustom PayloadTypeACR)
           WebhookHandlers
  = WebhookHandlers
    ++ concat (repeat [PayloadTypeCustom; PayloadTypeACR] n)
  /\ List.length
       (Nat.iter n (Webhook.NewWebhookUsecase PayloadTypeCustom PayloadTypeACR)
                 WebhookHandlers)
     = (List.length WebhookHandlers + 2 * n)%nat.
Proof.
  assert (E : Nat.iter n (Webhook.NewWebhookUsecase PayloadTypeCustom
                                                    PayloadTypeACR)
                       WebhookHandlers
              = WebhookHandlers
                ++ concat (repeat [PayloadTypeCustom; PayloadTypeACR] n)).
  { induction n as [|n IH]; simpl.
    - now rewrite app_nil_r.
    - rewrite IH. unfold Webhook.NewWebhookUsecase, Webhook.registerHandlers,
        Webhook.acrInstall, Webhook.customInstall.
      rewrite <- !app_assoc. f_equal.
      clear IH. induction n as [|n IH]; simpl; [reflexivity|].
      now rewrite <- IH. }
  split; [exact E|]. rewrite E, length_app. f_equal.
  clear E. induction n as [|n IH]; simpl; [reflexivity|].
  rewrite IH. lia.
Qed.

Section CustomHandlerFacts.

Variable DS : Type.
Variable Props : Type.
Variable CodeInfo : Type.
Variable Response : Type.
Variable dsGetComponent :
  DS -> string -> string -> Webhook.DsResult (Webhook.ApplicationComponent Props).
Variable dsPut :
  DS -> Webhook.ApplicationComponent Props -> DS * option Webhook.Error.
Variable mergeProperties : Props -> Props -> Webhook.Error + Props.
Variable Deploy :
  DS -> Webhook.ApplicationDeployRequest CodeInfo
  -> DS * (Webhook.Error + Response).
Variable TriggerTypeWebhook : string.

Local Abbreviation patchAll :=
  (Webhook.patchAll DS Props dsGetComponent dsPut mergeProperties).
Local Abbreviation customHandle :=
  (Webhook.customHandle DS Props CodeInfo Response dsGetComponent dsPut
     mergeProperties Deploy TriggerTypeWebhook).

Lemma patchAll_app (webhookTrigger : Webhook.ApplicationTrigger) (ds : DS)
    (pre post : list (string * Props)) :
  patchAll webhookTrigger ds (pre ++ post)
  = match patchAll webhookTrigger ds pre with
    | (ds1, Some e) => (ds1, Some e)
    | (ds1, None) => patchAll webhookTrigger ds1 post
    end.
Proof.
  revert ds. induction pre as [|[comp properties] pre IH]; intros ds; simpl.
  - reflexivity.
  - destruct (dsGetComponent ds _ comp) as [component| |e]; try reflexivity.
    destruct (Webhook.patchComponentProperties _ _ _ _ _ _ _) as [ds' [e|]];
      [reflexivity | apply IH].
Qed.

(** The custom handler patches the components in the order in which it
    visits them and gives up at the first one that fails: the store is
    left as the components before it were patched (they are not rolled
    back), no later component is touched, and the application is not
    deployed: the handler's answer is that error.  When no component
    fails, the handler's answer is the answer of the deployment, which
    is forced and of trigger type webhook. *)
Theorem custom_handler_stops_at_first_failure
    (webhookTrigger : Webhook.ApplicationTrigger) (ds ds1 : DS)
    (pre post : list (string * Props)) (codeInfo : CodeInfo) :
  (forall e,
     patchAll webhookTrigger ds pre = (ds1, Some e) ->
     customHandle webhookTrigger ds (pre ++ post) codeInfo = (ds1, inl e))
  /\ (patchAll webhookTrigger ds pre = (ds1, None) ->
      customHandle webhookTrigger ds (pre ++ post) codeInfo
      = customHandle webhookTrigger ds1 post codeInfo
      /\ customHandle webhookTrigger ds pre codeInfo
         = Deploy ds1
             {| Webhook.req_WorkflowName := Webhook.WorkflowName webhookTrigger;
                Webhook.req_Note := "triggered by webhook custom";
                Webhook.req_TriggerType := TriggerTypeWebhook;
                Webhook.req_Force := true;
                Webhook.req_CodeInfo := codeInfo |}).
Proof.
  unfold Webhook.customHandle. rewrite patchAll_app. split.
  - intros e ->. reflexivity.
  - intros ->. split; reflexivity.
Qed.

(** A component the store does not have ends the custom handler with
    the error that the application component does not exist, whatever
    comes after it in the upgrade; the components before it stay
    patched. *)
Theorem custom_handler_missing_component
    (webhookTrigger : Webhook.ApplicationTrigger) (ds ds1 : DS)
    (pre post : list (string * Props)) (comp : string) (properties : Props)
    (codeInfo : CodeInfo) :
  patchAll webhookTrigger ds pre = (ds1, None) ->
  dsGetComponent ds1 (Webhook.AppPrimaryKey webhookTrigger) comp
  = Webhook.DsNotExist ->
  customHandle webhookTrigger ds (pre ++ (comp, properties) :: post) codeInfo
  = (ds1, inl Webhook.ErrApplicationComponetNotExist).
Proof.
  intros Hpre Hget. unfold Webhook.customHandle.
  rewrite patchAll_app, Hpre. simpl. now rewrite Hget.
Qed.

End CustomHandlerFacts.

Lemma custom_handler_stops_at_first_failure_witness :
  Webhook.customHandle (gmap string string) string unit string
    MoreSamples.storeGet MoreSamples.storePut MoreSamples.overwrite
    MoreSamples.deployed "webhook" MoreSamples.trigger MoreSamples.componentStore
    ([("web", "image: v2"); ("worker", "image: v2")] ++ [("web", "image: v3")]) tt
  = (<["web" := "image: v2"]> MoreSamples.componentStore,
     inl Webhook.ErrApplicationComponetNotExist).
Proof.
  apply (proj1 (custom_handler_stops_at_first_failure
                  (gmap string string) string unit string
                  MoreSamples.storeGet MoreSamples.storePut MoreSamples.overwrite
                  MoreSamples.deployed "webhook" MoreSamples.trigger
                  MoreSamples.componentStore
                  (<["web" := "image: v2"]> MoreSamples.componentStore)
                  [("web", "image: v2"); ("worker", "image: v2")]
                  [("web", "image: v3")] tt)).
  reflexivity.
Defined.

Lemma custom_handler_missing_component_witness :
  Webhook.customHandle (gmap string string) string unit string
    MoreSamples.storeGet MoreSamples.storePut MoreSamples.overwrite
    MoreSamples.deployed "webhook" MoreSamples.trigger MoreSamples.componentStore
    ([("web", "image: v2")] ++ ("worker", "image: v2") :: [("web", "image: v3")])
    tt
  = (<["web" := "image: v2"]> MoreSamples.componentStore,
     inl Webhook.ErrApplicationComponetNotExist).
Proof.
  apply (custom_handler_missing_component
           (gmap string string) string unit string
           MoreSamples.storeGet MoreSamples.storePut MoreSamples.overwrite
           MoreSamples.deployed "webhook" MoreSamples.trigger
           MoreSamples.componentStore
           (<["web" := "image: v2"]> MoreSamples.componentStore)
           [("web", "image: v2")] [("web", "image: v3")] "worker" "image: v2" tt).
  - reflexivity.
  - reflexivity.
Defined.

(** * Rendering the endpoints of a NodePort Service *)

(** An endpoint of a NodePort Service has no host to show: unless the
    lower-cased protocol of its port is [http] or [https], it renders
    as that protocol, [://:] and the node port, with nothing between
    the slashes and the colon and nothing after the port. *)
Theorem nodePort_endpoint_renders_without_host
    (ToLower : string -> string) (service : Service) (ep : ServiceEndpoint) :
  svc_Type service = ServiceTypeNodePort ->
  In ep (generatorFromService service) ->
  ToLower (Protocol (endpoint ep)) <> "https" ->
  ToLower (Protocol (endpoint ep)) <> "http" ->
  ServiceEndpoint_String ToLower ep
  = ToLower (Protocol (endpoint ep)) +:+ "://:"
      +:+ Strconv.formatInt (Port (endpoint ep))
  /\ exists port, In port (svc_Ports service)
                  /\ Protocol (endpoint ep) = sp_Protocol port
                  /\ Port (endpoint ep) = sp_NodePort port.
Proof.
  intros Ht Hin Hs Hp. rewrite generatorFromService_cases, Ht in Hin.
  simpl in Hin. apply in_map_iff in Hin. destruct Hin as (port & <- & Hport).
  split; [|exists port; auto].
  unfold ServiceEndpoint_String, urlScheme, urlPath. simpl in *.
  assert (Hd : defaultPort (ToLower (sp_Protocol port)) (sp_NodePort port) = false).
  { destruct (defaultPort _ _) eqn:E; [|reflexivity].
    apply defaultPort_iff in E. destruct E as [[E _]|[E _]]; contradiction. }
  rewrite Hd. now rewrite string_app_nil_r.
Qed.

Lemma nodePort_endpoint_renders_without_host_witness :
  ServiceEndpoint_String asciiToLower
    (nodePortEndpoint Samples.nodePortSvc Samples.dns)
  = asciiToLower "UDP" +:+ "://:" +:+ Strconv.formatInt 30053
  /\ exists port, In port (svc_Ports Samples.nodePortSvc)
                  /\ "UDP" = sp_Protocol port
                  /\ 30053 = sp_NodePort port.
Proof.
  apply (nodePort_endpoint_renders_without_host asciiToLower Samples.nodePortSvc
           (nodePortEndpoint Samples.nodePortSvc Samples.dns)).
  - reflexivity.
  - right. left. reflexivity.
  - intros H. vm_compute in H. discriminate.
  - intros H. vm_compute in H. discriminate.
Defined.
